(** * The question-to-SQL-to-answer pipeline of [ai_agent.py]

    A shallow embedding of [BusinessAIAgent] (src/ai_agent.py): the
    fast-path pattern matcher, the clean-up of the language model's raw
    output, the query executor, the result narrator and the orchestrator
    [answer_question], followed by the properties the specification states
    about them.

    Modelling conventions.
    - Text is a Rocq [string].  The alphabet that is modelled faithfully is
      7-bit ASCII: [lower], [upper] and [strip] act as Python's [str.lower],
      [str.upper] and [str.strip] do on ASCII text.  Characters with a code
      above 127 are carried along as caseless, non-blank symbols.
    - The language model and the relational store are oracles of an
      environment [Env]; what they answer may depend on everything that
      happened before.  Every call is recorded in a [trace].
    - A Python exception is a value [exn] (its class and its [str()] text);
      code that may raise returns an [outcome].
    - [answer_question] is the agent on a console that takes every text
      it prints: there its [print] calls do nothing that is recorded and
      are left out.  [Printing.answer_question] has every [print], on a
      console that may refuse a text. *)

From Stdlib Require Import String Ascii List Bool Arith Lia.
From Stdlib Require Import Decimal DecimalString.
Import ListNotations.
Local Open Scope list_scope.
Local Open Scope string_scope.

(** ** Python's string operations, on ASCII text *)

Module PyStr.

Definition nl_char : ascii := "010"%char.
Definition nl : string := String nl_char EmptyString.
Definition dquote : string := String "034"%char EmptyString.

(** The three characters of SQL's [COUNT] over all rows, kept apart so
    that no literal of this file holds a comment bracket. *)
Definition star_arg : string := "(" ++ "*" ++ ")".

(** [str.isspace] for one character: TAB, LF, VT, FF, CR, the four
    separators FS, GS, RS, US, and the blank. *)
Definition is_space (c : ascii) : bool :=
  let n := nat_of_ascii c in
  (Nat.leb 9 n && Nat.leb n 13) || (Nat.leb 28 n && Nat.leb n 32).

Definition lower_char (c : ascii) : ascii :=
  let n := nat_of_ascii c in
  if Nat.leb 65 n && Nat.leb n 90 then ascii_of_nat (n + 32) else c.

Definition upper_char (c : ascii) : ascii :=
  let n := nat_of_ascii c in
  if Nat.leb 97 n && Nat.leb n 122 then ascii_of_nat (n - 32) else c.

Fixpoint map_chars (f : ascii -> ascii) (s : string) : string :=
  match s with
  | EmptyString => EmptyString
  | String c s' => String (f c) (map_chars f s')
  end.

(** [s.lower()] and [s.upper()] *)
Definition lower : string -> string := map_chars lower_char.
Definition upper : string -> string := map_chars upper_char.

(** [s.lstrip()], [s.rstrip()], [s.strip()] *)
Fixpoint lstrip (s : string) : string :=
  match s with
  | EmptyString => EmptyString
  | String c s' => if is_space c then lstrip s' else s
  end.

Fixpoint rstrip (s : string) : string :=
  match s with
  | EmptyString => EmptyString
  | String c s' =>
      match rstrip s' with
      | EmptyString => if is_space c then EmptyString else String c EmptyString
      | r => String c r
      end
  end.

Definition strip (s : string) : string := rstrip (lstrip s).

(** [s.startswith(p)] *)
Fixpoint startswith (s p : string) {struct p} : bool :=
  match p, s with
  | EmptyString, _ => true
  | String _ _, EmptyString => false
  | String a p', String b s' => Ascii.eqb a b && startswith s' p'
  end.

(** [sub in s] *)
Fixpoint contains (sub s : string) : bool :=
  startswith s sub ||
  match s with
  | EmptyString => false
  | String _ s' => contains sub s'
  end.

(** [s[n:]] *)
Fixpoint drop (n : nat) (s : string) : string :=
  match n, s with
  | O, _ => s
  | S _, EmptyString => EmptyString
  | S n', String _ s' => drop n' s'
  end.

(** [s.split('\n')]: never the empty list. *)
Fixpoint split_lines (s : string) : list string :=
  match s with
  | EmptyString => [EmptyString]
  | String c s' =>
      if Ascii.eqb c nl_char then EmptyString :: split_lines s'
      else match split_lines s' with
           | [] => [String c EmptyString]
           | l :: ls => String c l :: ls
           end
  end.

(** [sep.join(ls)] *)
Definition join (sep : string) (ls : list string) : string :=
  String.concat sep ls.

(** [re.sub(pat + r'\n?', '', s)] for a literal, non-empty [pat]: scanning
    from the left, every occurrence of [pat], together with the line feed
    that directly follows it if there is one, is deleted; the scan resumes
    after the deleted text.  [skip] counts the characters of the current
    match that are still to be dropped. *)
Fixpoint sub_del (pat : string) (skip : nat) (s : string) : string :=
  match s with
  | EmptyString => EmptyString
  | String c s' =>
      match skip with
      | S k => sub_del pat k s'
      | O =>
          if startswith s pat then
            let eol := match String.get (String.length pat) s with
                       | Some d => Ascii.eqb d nl_char
                       | None => false
                       end in
            sub_del pat (Nat.pred (String.length pat) + (if eol then 1 else 0)) s'
          else String c (sub_del pat 0 s')
      end
  end.

Definition re_sub_fence (pat s : string) : string := sub_del pat 0 s.

(** [str(n)] for a non-negative integer *)
Definition str_nat (n : nat) : string := NilZero.string_of_uint (Nat.to_uint n).

(** Truth value of a string: [if s:] *)
Definition truthy (s : string) : bool :=
  match s with EmptyString => false | _ => true end.

(** A text made of the given lines, separated by line feeds. *)
Definition text (ls : list string) : string := join nl ls.

End PyStr.
Import PyStr.

(** ** The fixed texts of the agent *)

Module Texts.

(** [_get_database_schema]: the schema catalog handed to the model. *)
Definition db_schema : string :=
  text
      [ "";
        "DATABASE SCHEMA INFORMATION:";
        "";
        "TABLES AND RELATIONSHIPS:";
        "";
        "1. categories";
        "   - category_id (PRIMARY KEY)";
        "   - category_name (e.g., Electronics, Clothing, etc.)";
        "   - description";
        "";
        "2. suppliers  ";
        "   - supplier_id (PRIMARY KEY)";
        "   - supplier_name, contact_person, email, phone";
        "   - address, city, country";
        "";
        "3. products";
        "   - product_id (PRIMARY KEY)";
        "   - product_name, product_code";
        "   - category_id (FOREIGN KEY -> categories)";
        "   - supplier_id (FOREIGN KEY -> suppliers)  ";
        "   - unit_price, cost_price";
        "   - weight, dimensions, is_active";
        "";
        "4. warehouses";
        "   - warehouse_id (PRIMARY KEY)";
        "   - warehouse_name, location, capacity";
        "   - manager_name, phone";
        "";
        "5. inventory";
        "   - product_id, warehouse_id (FOREIGN KEYS)";
        "   - quantity_on_hand, quantity_reserved";
        "   - reorder_level, max_stock_level";
        "";
        "6. customers";
        "   - customer_id (PRIMARY KEY)";
        "   - customer_name, customer_type (Individual/Business)";
        "   - email, phone, address, city, country";
        "   - credit_limit";
        "";
        "7. sales_orders";
        "   - order_id (PRIMARY KEY)";
        "   - order_number, customer_id, warehouse_id";
        "   - order_date, required_date, shipped_date";
        "   - order_status (Pending, Processing, Shipped, Delivered, Cancelled)";
        "   - payment_status (Pending, Paid, Partial, Refunded)";
        "   - subtotal, tax_amount, shipping_cost, total_amount";
        "";
        "8. sales_order_items";
        "   - order_id (FOREIGN KEY -> sales_orders)";
        "   - product_id (FOREIGN KEY -> products)";
        "   - quantity, unit_price, discount_percentage, line_total";
        "";
        "9. inventory_movements";
        "   - product_id, warehouse_id";
        "   - movement_type (IN, OUT, TRANSFER, ADJUSTMENT)";
        "   - quantity, movement_date, reference_type";
        "";
        "COMMON BUSINESS QUERIES:";
        "- Revenue analysis: Use sales_orders and sales_order_items";
        "- Inventory levels: Use inventory table";
        "- Product performance: Join products with sales_order_items";
        "- Customer analysis: Use customers and sales_orders";
        "- Warehouse operations: Use warehouses, inventory, sales_orders";
        "" ].

(** The four statements of [_get_predefined_query], as the source has them
    between their triple quotes: a leading line feed, twelve blanks of
    indentation on every line, and a last line of blanks. *)
Definition best_seller_monthly_sql : string :=
  text
      [ "";
        "            SELECT ";
        "                strftime('%Y-%m', so.order_date) AS month,";
        "                p.product_name,";
        "                SUM(soi.quantity) AS total_quantity,";
        "                SUM(soi.line_total) AS total_revenue,";
        "                COUNT(DISTINCT so.order_id) AS order_count";
        "            FROM sales_orders so";
        "            JOIN sales_order_items soi ON so.order_id = soi.order_id";
        "            JOIN products p ON soi.product_id = p.product_id";
        "            WHERE so.order_status != 'Cancelled'";
        "            GROUP BY strftime('%Y-%m', so.order_date), p.product_id, p.product_name";
        "            ORDER BY month DESC, total_revenue DESC";
        "            " ].

Definition top_products_revenue_sql : string :=
  text
      [ "";
        "            SELECT ";
        "                p.product_name,";
        "                SUM(soi.line_total) AS total_revenue,";
        "                SUM(soi.quantity) AS total_quantity,";
        "                COUNT(DISTINCT so.order_id) AS order_count";
        "            FROM sales_order_items soi";
        "            JOIN products p ON soi.product_id = p.product_id";
        "            JOIN sales_orders so ON soi.order_id = so.order_id";
        "            WHERE so.order_status != 'Cancelled'";
        "            GROUP BY p.product_id, p.product_name";
        "            ORDER BY total_revenue DESC";
        "            LIMIT 10";
        "            " ].

Definition monthly_sales_sql : string :=
  text
      [ "";
        "            SELECT ";
        "                strftime('%Y-%m', order_date) AS month,";
        ("                COUNT" ++ star_arg ++ " AS order_count,");
        "                SUM(total_amount) AS total_revenue,";
        "                AVG(total_amount) AS avg_order_value";
        "            FROM sales_orders";
        "            WHERE order_status != 'Cancelled'";
        "            GROUP BY strftime('%Y-%m', order_date)";
        "            ORDER BY month DESC";
        "            LIMIT 12";
        "            " ].

Definition low_stock_sql : string :=
  text
      [ "";
        "            SELECT ";
        "                p.product_name,";
        "                w.warehouse_name,";
        "                i.quantity_on_hand,";
        "                i.reorder_level,";
        "                i.max_stock_level";
        "            FROM inventory i";
        "            JOIN products p ON i.product_id = p.product_id";
        "            JOIN warehouses w ON i.warehouse_id = w.warehouse_id";
        "            WHERE i.quantity_on_hand <= i.reorder_level";
        "            ORDER BY i.quantity_on_hand ASC";
        "            " ].

(** The prompt of [_generate_sql_query] around its two holes. *)
Definition sql_prompt_head : string :=
  text
      [ "";
        "You are a SQL expert for a business inventory and sales database. ";
        "Convert the following business question into a SQL query.";
        "";
        "" ].

Definition sql_prompt_rules : string :=
  text
      [ "";
        "";
        "CRITICAL RULES:";
        "1. Return ONLY the SQL query - NO explanations, NO comments, NO extra text";
        "2. Generate ONLY valid SQLite SQL queries";
        "3. Use proper JOINs when accessing related tables";
        "4. Include appropriate WHERE clauses for filtering";
        "5. Use aggregate functions (SUM, COUNT, AVG) when needed";
        "6. Format dates properly for SQLite using strftime()";
        "7. Always include column aliases for clarity";
        "8. Limit results to reasonable numbers (use LIMIT if needed)";
        ("9. Start directly with SELECT, not with " ++ dquote ++ "Here is" ++ dquote ++ " or any explanation");
        "";
        "QUESTION: " ].

Definition sql_prompt_tail : string :=
  text
      [ "";
        "";
        "SQL:";
        "" ].

(** The prompt of [_interpret_results] around its three holes. *)
Definition analysis_prompt_head : string :=
  text
      [ "";
        "You are a business analyst. Interpret the following query results and provide insights.";
        "";
        "ORIGINAL QUESTION: " ].

Definition analysis_prompt_count : string :=
  text
      [ "";
        "";
        "QUERY RESULTS (" ].

Definition analysis_prompt_records : string :=
  text
      [ " records):";
        "" ].

Definition analysis_prompt_tail : string :=
  text
      [ "";
        "";
        "INSTRUCTIONS:";
        "1. Provide a clear, concise summary of the findings";
        "2. Highlight key insights and trends";
        "3. Use business language, not technical jargon";
        "4. Include specific numbers and percentages where relevant";
        "5. Suggest actionable recommendations if appropriate";
        "6. Keep response under 200 words";
        "";
        "BUSINESS ANALYSIS:";
        "" ].

End Texts.
Import Texts.

(** ** Exceptions, outcomes and the trace of external calls *)

(** The two classes of exception that [_execute_query] tells apart:
    [sqlite3.Error] (and its subclasses) and every other [Exception]. *)
Inductive exn_class : Type := SqliteError | OtherException.

(** An exception: its class and its text, [str(e)]. *)
Record exn : Type := mk_exn { exn_kind : exn_class; exn_str : string }.

(** [Exception(msg)] *)
Definition Exception (msg : string) : exn := mk_exn OtherException msg.

Inductive outcome (A : Type) : Type :=
| Return (a : A)
| Raise (e : exn).
Arguments Return {A} a.
Arguments Raise {A} e.

(** What the agent does to the outside world, in the order it does it. *)
Inductive event : Type :=
| EvInvoke (prompt : string)   (* self.llm.invoke(prompt) *)
| EvConnect                    (* sqlite3.connect succeeded *)
| EvExecute (sql : string)     (* cursor.execute(sql) and fetchall *)
| EvClose.                     (* conn.close() *)

Definition trace : Type := list event.

(** Computations that may raise and that extend the trace. *)
Definition M (A : Type) : Type := trace -> outcome A * trace.

Definition ret {A} (a : A) : M A := fun t => (Return a, t).

Definition raise {A} (e : exn) : M A := fun t => (Raise e, t).

Definition bind {A B} (m : M A) (k : A -> M B) : M B :=
  fun t =>
    match m t with
    | (Return a, t') => k a t'
    | (Raise e, t') => (Raise e, t')
    end.

(** [try: m  except Exception as e: h e] *)
Definition try_except {A} (m : M A) (h : exn -> M A) : M A :=
  fun t =>
    match m t with
    | (Return a, t') => (Return a, t')
    | (Raise e, t') => h e t'
    end.

(** A pure step that may raise, run inside a computation. *)
Definition lift {A} (o : outcome A) : M A := fun t => (o, t).

Notation "x <- c1 ;; c2" := (bind c1 (fun x => c2))
  (at level 61, c1 at next level, right associativity).

(** Connections opened and not closed along a trace. *)
Definition count_connect (t : trace) : nat :=
  List.length (filter (fun e => match e with EvConnect => true | _ => false end) t).

Definition count_close (t : trace) : nat :=
  List.length (filter (fun e => match e with EvClose => true | _ => false end) t).

Definition invocations (t : trace) : list string :=
  flat_map (fun e => match e with EvInvoke p => [p] | _ => [] end) t.

(** ** The pattern fast path: [_get_predefined_query] *)

Definition best_seller_monthly (question_lower : string) : bool :=
  contains "best seller" question_lower
  && (contains "month" question_lower || contains "monthly" question_lower).

Definition top_products_revenue (question_lower : string) : bool :=
  contains "top" question_lower && contains "product" question_lower
  && contains "revenue" question_lower.

Definition monthly_sales (question_lower : string) : bool :=
  contains "sales by month" question_lower
  || contains "monthly sales" question_lower.

Definition low_stock (question_lower : string) : bool :=
  contains "low stock" question_lower || contains "reorder" question_lower.

Definition _get_predefined_query (question : string) : option string :=
  let question_lower := lower question in
  if best_seller_monthly question_lower then Some best_seller_monthly_sql
  else if top_products_revenue question_lower then Some top_products_revenue_sql
  else if monthly_sales question_lower then Some monthly_sales_sql
  else if low_stock question_lower then Some low_stock_sql
  else None.

(** ** The clean-up pass of [_generate_sql_query] *)

Definition prefixes_to_remove : list string :=
  [ "Here is the SQL query:";
    "Here's the SQL query:";
    "SQL Query:";
    "The SQL query is:";
    "Query:";
    "SQL:";
    "Here is";
    "Here's" ].

(** One turn of the loop over [prefixes_to_remove]. *)
Definition remove_prefix (sql_query prefix : string) : string :=
  if startswith (lower sql_query) (lower prefix)
  then strip (drop (String.length prefix) sql_query)
  else sql_query.

Definition other_keywords : list string :=
  ["WITH"; "CREATE"; "INSERT"; "UPDATE"; "DELETE"].

(** One turn of the loop over the lines: the state is [found_select] and
    [sql_lines]. *)
Definition scan_line (st : bool * list string) (line0 : string)
  : bool * list string :=
  let '(found_select, sql_lines) := st in
  let line := strip line0 in
  if startswith (upper line) "SELECT" || found_select then
    (true, (sql_lines ++ [line])%list)
  else if negb found_select
          && existsb (fun keyword => contains keyword (upper line)) other_keywords
  then (true, (sql_lines ++ [line])%list)
  else (found_select, sql_lines).

Definition scan_lines (lines : list string) : list string :=
  snd (fold_left scan_line lines (false, [])).

Definition sql_commands : list string :=
  ["SELECT"; "WITH"; "CREATE"; "INSERT"; "UPDATE"; "DELETE"].

(** The final test: [any(sql_query.upper().startswith(cmd) for cmd in ...)] *)
Definition starts_with_command (sql_query : string) : bool :=
  existsb (fun cmd => startswith (upper sql_query) cmd) sql_commands.

(** Fences, then known prefixes: the text that reaches the line scan. *)
Definition strip_fences_and_prefixes (content : string) : string :=
  let sql_query := strip content in
  let sql_query := re_sub_fence "```sql" sql_query in
  let sql_query := re_sub_fence "```" sql_query in
  fold_left remove_prefix prefixes_to_remove sql_query.

(** The line scan and the final [strip]. *)
Definition keep_sql_lines (sql_query : string) : string :=
  let lines := split_lines sql_query in
  let sql_lines := scan_lines lines in
  let sql_query := match sql_lines with
                   | [] => sql_query
                   | _ => join nl sql_lines
                   end in
  strip sql_query.

Definition cleanup (content : string) : string :=
  keep_sql_lines (strip_fences_and_prefixes content).

(** Clean-up followed by validation. *)
Definition clean_and_validate (content : string) : outcome string :=
  let sql_query := cleanup content in
  if negb (starts_with_command sql_query)
  then Raise (Exception "Generated query doesn't start with a valid SQL command")
  else Return sql_query.

Definition sql_prompt (question : string) : string :=
  sql_prompt_head ++ db_schema ++ sql_prompt_rules ++ question ++ sql_prompt_tail.

(** ** The vocabulary of the specification *)

(** The specification's wording of the validation: the text starts,
    whatever the case of its letters, with one of the six SQL commands. *)
Definition starts_with_keyword_ci (s : string) : Prop :=
  exists kw pre rest, In kw sql_commands /\ s = pre ++ rest /\ upper pre = kw.

(** The specification's wording of the fast path: an ordered list of
    (predicate, statement) pairs of which the first match wins. *)
Definition fast_path_patterns : list ((string -> bool) * string) :=
  [ (best_seller_monthly, best_seller_monthly_sql);
    (top_products_revenue, top_products_revenue_sql);
    (monthly_sales, monthly_sales_sql);
    (low_stock, low_stock_sql) ].

Definition first_match (question : string) : option string :=
  option_map snd
    (find (fun p => fst p (lower question)) fast_path_patterns).

(** The specification's wording of the scan: lines are discarded until one
    starts with an SQL command; that line and all that follow are kept. *)
Fixpoint skip_to_first_keyword_line (lines : list string) : list string :=
  match lines with
  | [] => []
  | line :: rest =>
      if starts_with_command (strip line) then map strip lines
      else skip_to_first_keyword_line rest
  end.

(** The line holds WITH, CREATE, INSERT, UPDATE or DELETE somewhere. *)
Definition mentions_keyword (line : string) : bool :=
  existsb (fun keyword => contains keyword (upper (strip line))) other_keywords.

(** No line ahead of the first one that starts with an SQL command holds
    one of those five words. *)
Fixpoint quiet_preamble (lines : list string) : bool :=
  match lines with
  | [] => true
  | line :: rest =>
      starts_with_command (strip line)
      || (negb (mentions_keyword line) && quiet_preamble rest)
  end.

(** A failure of [_generate_sql_query], as the caller sees it. *)
Definition GenerationError (e : exn) : Prop :=
  exists detail, e = Exception ("Error generating SQL query: " ++ detail).

(** A failure of [_execute_query], as the caller sees it. *)
Definition ExecutionError (e : exn) : Prop :=
  exists detail,
    e = Exception ("Database error: " ++ detail)
    \/ e = Exception ("Query execution error: " ++ detail).

Definition invalid_command : exn :=
  Exception "Generated query doesn't start with a valid SQL command".

(** The exception [_execute_query] raises in place of [e]. *)
Definition execution_error (e : exn) : exn :=
  match exn_kind e with
  | SqliteError => Exception ("Database error: " ++ exn_str e)
  | OtherException => Exception ("Query execution error: " ++ exn_str e)
  end.

(** ** The agent *)

(** A Python [dict] with text keys: insertion-ordered, one entry per key. *)
Definition dict (Value : Type) : Type := list (string * Value).

(** Python's built-in renderings of database values, which the agent uses
    and does not define: [str(v)] inside an f-string, the text of a
    [KeyError] (the [repr] of the missing key), and the [repr] of a list
    of rows. *)
Class Rendering (Value : Type) : Type := {
  str_value : Value -> string;
  repr_key : string -> string;
  repr_rows : list (dict Value) -> string
}.

Section Agent.

Context {Value : Type} {rendering : Rendering Value}.

Fixpoint dict_get (d : dict Value) (k : string) : option Value :=
  match d with
  | [] => None
  | (k', v) :: d' => if String.eqb k' k then Some v else dict_get d' k
  end.

(** [d[k] = v] *)
Fixpoint dict_set (d : dict Value) (k : string) (v : Value) : dict Value :=
  match d with
  | [] => [(k, v)]
  | (k', v') :: d' =>
      if String.eqb k' k then (k', v) :: d' else (k', v') :: dict_set d' k v
  end.

(** A [sqlite3.Row]: indexed by column name, defined on the names of the
    cursor's description, which are also its [keys()]. *)
Definition sqlite_row : Type := string -> Value.

(** [dict(row)] for a row whose [keys()] are [keys]. *)
Definition dict_of_row (keys : list string) (row : sqlite_row) : dict Value :=
  fold_left (fun d k => dict_set d k (row k)) keys [].

(** What a cursor holds after [execute] and [fetchall]: the column names
    of its description ([None] when the statement produced none) and the
    rows. *)
Definition cursor_result : Type := option (list string) * list sqlite_row.

(** The outside world: the language model and the relational store.  Each
    answer may depend on the trace so far. *)
Record Env : Type := mk_env {
  llm_invoke : trace -> string -> outcome string;
  db_connect : trace -> outcome unit;
  db_execute : trace -> string -> outcome cursor_result
}.

Variable env : Env.

(** [self.llm.invoke(prompt).content] *)
Definition invoke (prompt : string) : M string :=
  fun t => (llm_invoke env t prompt, (t ++ [EvInvoke prompt])%list).

(** [_connect_db] *)
Definition _connect_db : M unit :=
  fun t =>
    match db_connect env t with
    | Return tt => (Return tt, (t ++ [EvConnect])%list)
    | Raise e => (Raise e, t)
    end.

(** [cursor.execute(sql_query)], [cursor.fetchall()], [cursor.description] *)
Definition cursor_execute (sql_query : string) : M cursor_result :=
  fun t => (db_execute env t sql_query, (t ++ [EvExecute sql_query])%list).

(** [conn.close()] *)
Definition conn_close : M unit :=
  fun t => (Return tt, (t ++ [EvClose])%list).

(** [_generate_sql_query] *)
Definition _generate_sql_query (question : string) : M string :=
  let from_model : M string :=
    try_except
      (content <- invoke (sql_prompt question) ;;
       lift (clean_and_validate content))
      (fun e => raise (Exception ("Error generating SQL query: " ++ exn_str e)))
  in
  match _get_predefined_query question with
  | Some predefined =>
      if truthy predefined then ret (strip predefined) else from_model
  | None => from_model
  end.

(** The column names of a cursor's description. *)
Definition columns_of (description : option (list string)) : list string :=
  match description with
  | Some names => names
  | None => []
  end.

(** [_execute_query] *)
Definition _execute_query (sql_query : string) : M (list (dict Value) * list string) :=
  try_except
    (_ <- _connect_db ;;
     cur <- cursor_execute sql_query ;;
     let '(description, rows) := cur in
     let columns := columns_of description in
     let results := map (dict_of_row columns) rows in
     _ <- conn_close ;;
     ret (results, columns))
    (fun e =>
       match exn_kind e with
       | SqliteError => raise (Exception ("Database error: " ++ exn_str e))
       | OtherException =>
           raise (Exception ("Query execution error: " ++ exn_str e))
       end).

(** [[f"{col}: {row[col]}" for col in columns]] *)
Fixpoint row_fields (row : dict Value) (columns : list string)
  : outcome (list string) :=
  match columns with
  | [] => Return []
  | col :: columns' =>
      match dict_get row col with
      | None => Raise (mk_exn OtherException (repr_key col))
      | Some v =>
          match row_fields row columns' with
          | Return fs => Return ((col ++ ": " ++ str_value v) :: fs)
          | Raise e => Raise e
          end
      end
  end.

(** The loop of the small case: [i] is the number of the next row. *)
Fixpoint render_all (i : nat) (results : list (dict Value)) (columns : list string)
    (results_text : string) : outcome string :=
  match results with
  | [] => Return results_text
  | row :: rest =>
      match row_fields row columns with
      | Raise e => Raise e
      | Return fs =>
          render_all (S i) rest columns
            (results_text ++ nl ++ str_nat i ++ ". " ++ join " | " fs)
      end
  end.

(** The loop of the large case. *)
Fixpoint render_first (i : nat) (results : list (dict Value)) (columns : list string)
    (results_text : string) : outcome string :=
  match results with
  | [] => Return results_text
  | row :: rest =>
      match row_fields row columns with
      | Raise e => Raise e
      | Return fs =>
          render_first (S i) rest columns
            (results_text ++ str_nat i ++ ". " ++ join " | " fs ++ nl)
      end
  end.

Definition render_results (results : list (dict Value)) (columns : list string)
  : outcome string :=
  if Nat.leb (List.length results) 10 then render_all 1 results columns ""
  else render_first 1 (firstn 5 results) columns
         (nl ++ "Found " ++ str_nat (List.length results)
             ++ " records. Here are the first 5:" ++ nl).

Definition analysis_prompt (question : string) (n : nat) (results_text : string)
  : string :=
  analysis_prompt_head ++ question ++ analysis_prompt_count ++ str_nat n
    ++ analysis_prompt_records ++ results_text ++ analysis_prompt_tail.

Definition no_data_message : string := "No data found for your query.".

Definition fallback_text (e : exn) (results : list (dict Value)) : string :=
  "Results found but interpretation failed: " ++ exn_str e ++ nl ++ nl
    ++ "Raw results: " ++ repr_rows (firstn 3 results) ++ "...".

(** [_interpret_results] *)
Definition _interpret_results (question : string) (results : list (dict Value))
    (columns : list string) : M string :=
  match results with
  | [] => ret no_data_message
  | _ =>
      results_text <- lift (render_results results columns) ;;
      let prompt :=
        analysis_prompt question (List.length results) results_text in
      try_except
        (content <- invoke prompt ;; ret (strip content))
        (fun e => ret (fallback_text e results))
  end.

(** The record [answer_question] returns.  The key ["error"] exists in the
    failure record only; ["sql_query"] is [None] there. *)
Record AnswerRecord : Type := mk_answer {
  success : bool;
  question : string;
  error : option string;
  sql_query : option string;
  results : list (dict Value);
  columns : list string;
  analysis : string;
  record_count : nat
}.

Definition apology (e : exn) : string :=
  "Sorry, I couldn't process your question: " ++ exn_str e.

Definition failure_record (question : string) (e : exn) : AnswerRecord :=
  {| success := false;
     question := question;
     error := Some (exn_str e);
     sql_query := None;
     results := [];
     columns := [];
     analysis := apology e;
     record_count := 0 |}.

(** The record of a successful request. *)
Definition success_record (question sql : string) (rows : list (dict Value))
    (cols : list string) (txt : string) : AnswerRecord :=
  {| success := true;
     question := question;
     error := None;
     sql_query := Some sql;
     results := rows;
     columns := cols;
     analysis := txt;
     record_count := List.length rows |}.

(** [answer_question] on a console that takes every text: its [print]
    calls (lines 346 to 359, and 373 in the handler) return there and are
    left out.  [Printing.answer_question] below has them, on any console. *)
Definition answer_question (question : string) : M AnswerRecord :=
  try_except
    (sql_query <- _generate_sql_query question ;;
     rc <- _execute_query sql_query ;;
     let '(results, columns) := rc in
     analysis <- _interpret_results question results columns ;;
     ret (success_record question sql_query results columns analysis))
    (fun e => ret (failure_record question e)).

(** A result set whose rows map every column name. *)
Definition well_formed (rows : list (dict Value)) (cols : list string) : Prop :=
  Forall (fun row => Forall (fun col => dict_get row col <> None) cols) rows.

(** Synthesis or execution fails with [e], leaving the trace [t']. *)
Definition pipeline_fails (question : string) (t : trace) (e : exn)
    (t' : trace) : Prop :=
  _generate_sql_query question t = (Raise e, t')
  \/ exists sql t1,
       _generate_sql_query question t = (Return sql, t1)
       /\ _execute_query sql t1 = (Raise e, t').

End Agent.

Arguments failure_record {Value} question e.
Arguments AnswerRecord Value : clear implicits.
Arguments Env Value : clear implicits.

(** ** Concrete worlds for the scenarios *)

Module Scenario.

(** Text-valued rows, rendered the way Python renders short plain texts. *)
#[export] Instance text_rendering : Rendering string := {|
  str_value := fun v => v;
  repr_key := fun k => "'" ++ k ++ "'";
  repr_rows := fun rows =>
    "[" ++ join ", "
      (map (fun row : dict string =>
              "{" ++ join ", "
                (map (fun kv => "'" ++ fst kv ++ "': '" ++ snd kv ++ "'") row)
              ++ "}") rows) ++ "]"
|}.

(** A store that opens and answers every statement with one row, [n = 1]. *)
Definition one_row : cursor_result (Value := string) :=
  (Some ["n"], [fun _ => "1"]).

(** A model that always answers [content]; a store that always answers
    [one_row]. *)
Definition answering (content : string) : Env string :=
  {| llm_invoke := fun _ _ => Return content;
     db_connect := fun _ => Return tt;
     db_execute := fun _ _ => Return one_row |}.

(** As [answering], with a model that fails whenever it is invoked. *)
Definition model_down : Env string :=
  {| llm_invoke := fun _ _ => Raise (Exception "model unavailable");
     db_connect := fun _ => Return tt;
     db_execute := fun _ _ => Return one_row |}.

(** A store that opens and rejects every statement. *)
Definition rejecting : Env string :=
  {| llm_invoke := fun _ _ => Return "SELECT id FROM orders_archive";
     db_connect := fun _ => Return tt;
     db_execute := fun _ _ =>
       Raise (mk_exn SqliteError "no such table: orders_archive") |}.

(** The model output of the specification's end-to-end scenario. *)
Definition fenced_output : string :=
  "Here's the SQL query:" ++ nl ++ "```sql" ++ nl ++ "SELECT 1" ++ nl ++ "```".

(** A model output whose first line is prose that mentions WITH. *)
Definition prose_output : string :=
  "This query works with the orders table:" ++ nl ++ "SELECT 1".

End Scenario.

(** ** Further vocabulary: what a trace holds *)

(** The statements sent to the store along a trace. *)
Definition executed (t : trace) : list string :=
  flat_map (fun e => match e with EvExecute q => [q] | _ => [] end) t.


(** ** The dashboard: [app.py] *)

Module Dashboard.

(** The statements of [get_database_stats]. *)
Definition total_products_sql : string :=
  "SELECT COUNT" ++ star_arg ++ " as count FROM products WHERE is_active = 1".

Definition total_customers_sql : string :=
  "SELECT COUNT" ++ star_arg ++ " as count FROM customers".

Definition total_orders_sql : string :=
  "SELECT COUNT" ++ star_arg ++ " as count FROM sales_orders".

Definition total_revenue_sql : string :=
  "SELECT COALESCE(SUM(total_amount), 0) as revenue FROM sales_orders WHERE order_status != 'Cancelled'".

Definition pending_orders_sql : string :=
  "SELECT COUNT" ++ star_arg ++ " as count FROM sales_orders WHERE order_status = 'Pending'".

Definition low_stock_count_sql : string :=
  "SELECT COUNT" ++ star_arg ++ " as count FROM inventory WHERE quantity_on_hand <= reorder_level".




(** What the dashboard does to the outside world. *)
Inductive ui_event : Type :=
| UiConnect                     (* sqlite3.connect succeeded *)
| UiReadSql (sql : string)      (* pd.read_sql(sql, conn) *)
| UiClose                       (* conn.close() *)
| UiError (message : string).   (* st.error(message) *)

Definition ui_trace : Type := list ui_event.

(** The connections closed along a trace. *)
Definition ui_closes (t : ui_trace) : nat :=
  List.length (filter (fun e => match e with UiClose => true | _ => false end) t).

Definition U (A : Type) : Type := ui_trace -> outcome A * ui_trace.

Definition u_ret {A} (a : A) : U A := fun t => (Return a, t).

Definition u_bind {A B} (m : U A) (k : A -> U B) : U B :=
  fun t =>
    match m t with
    | (Return a, t') => k a t'
    | (Raise e, t') => (Raise e, t')
    end.

Definition u_try {A} (m : U A) (h : exn -> U A) : U A :=
  fun t =>
    match m t with
    | (Return a, t') => (Return a, t')
    | (Raise e, t') => h e t'
    end.

Notation "x <~ c1 ;; c2" := (u_bind c1 (fun x => c2))
  (at level 61, c1 at next level, right associativity).

Section Stats.

Context {Value : Type} {rendering : Rendering Value}.

(** A pandas [DataFrame] as [read_sql] builds it: its column labels and
    its rows, indexed 0, 1, ...; a row gives a value for a label. *)
Record frame : Type := mk_frame {
  frame_columns : list string;
  frame_rows : list (string -> Value)
}.


(** [df[col][0]]: a [KeyError] for a label that is no column; the value
    of the first row for a label that is one column; a [KeyError] for 0
    when there is no first row, or when the label names several columns
    (then [df[col]] is a frame, of which 0 is no column). *)
Definition first_cell (df : frame) (col : string) : outcome Value :=
  match List.length (filter (String.eqb col) (frame_columns df)) with
  | 0 => Raise (mk_exn OtherException (repr_key col))
  | 1 =>
      match frame_rows df with
      | [] => Raise (mk_exn OtherException "0")
      | row :: _ => Return (row col)
      end
  | _ => Raise (mk_exn OtherException "0")
  end.

(** The store as the dashboard sees it. *)
Record Store : Type := mk_store {
  connect : ui_trace -> outcome unit;
  read_sql : ui_trace -> string -> outcome frame
}.

Variable store : Store.

(** [sqlite3.connect('inventory_sales.db')] *)
Definition ui_connect : U unit :=
  fun t =>
    match connect store t with
    | Return tt => (Return tt, (t ++ [UiConnect])%list)
    | Raise e => (Raise e, t)
    end.

(** [pd.read_sql(sql, conn)] *)
Definition ui_read_sql (sql : string) : U frame :=
  fun t => (read_sql store t sql, (t ++ [UiReadSql sql])%list).

(** [conn.close()] *)
Definition ui_close : U unit := fun t => (Return tt, (t ++ [UiClose])%list).

(** [st.error(message)] *)
Definition st_error (message : string) : U unit :=
  fun t => (Return tt, (t ++ [UiError message])%list).

(** [pd.read_sql(sql, conn)[col][0]] *)
Definition read_first (sql col : string) : U Value :=
  df <~ ui_read_sql sql ;;
  fun t => (first_cell df col, t).

(** [get_database_stats] *)
Definition get_database_stats : U (dict Value) :=
  u_try
    (_ <~ ui_connect ;;
     let stats : dict Value := [] in
     v <~ read_first total_products_sql "count" ;;
     let stats := dict_set stats "total_products" v in
     v <~ read_first total_customers_sql "count" ;;
     let stats := dict_set stats "total_customers" v in
     v <~ read_first total_orders_sql "count" ;;
     let stats := dict_set stats "total_orders" v in
     v <~ read_first total_revenue_sql "revenue" ;;
     let stats := dict_set stats "total_revenue" v in
     v <~ read_first pending_orders_sql "count" ;;
     let stats := dict_set stats "pending_orders" v in
     v <~ read_first low_stock_count_sql "low_stock" ;;
     let stats := dict_set stats "low_stock" v in
     _ <~ ui_close ;;
     u_ret stats)
    (fun e =>
       _ <~ st_error ("Error getting database stats: " ++ exn_str e) ;;
       u_ret []).



End Stats.

End Dashboard.

(** The rows [_interpret_results] renders into its prompt: all of them up
    to ten, the first five beyond. *)
Definition rendered_rows {Value : Type} (rows : list (dict Value))
  : list (dict Value) :=
  if Nat.leb (List.length rows) 10 then rows else firstn 5 rows.

(** ** More concrete worlds *)

Module MoreScenarios.

Import Scenario Dashboard.


(** A store for the dashboard that names the column of each result as the
    query does: [revenue] for the revenue query, [count] for the others. *)
Definition counting_store : Store (Value := string) :=
  {| connect := fun _ => Return tt;
     read_sql := fun _ sql =>
       Return (mk_frame
                 [if String.eqb sql total_revenue_sql then "revenue" else "count"]
                 [fun _ => "7"]) |}.

(** An answer of two lines, the second one indented. *)
Definition indented_output : string := "SELECT a" ++ nl ++ "  FROM t".

End MoreScenarios.

(** ** [answer_question] with its [print] calls *)

Module Printing.

(** The signs the messages start with, as the bytes of their UTF-8
    encoding: U+1F914, U+1F50D, U+1F4DD, U+26A1, U+1F4CA, U+1F9E0, U+274C. *)
Definition sign_thinking : string :=
  String "240" (String "159" (String "164" (String "148" EmptyString))).
Definition sign_search : string :=
  String "240" (String "159" (String "148" (String "141" EmptyString))).
Definition sign_memo : string :=
  String "240" (String "159" (String "147" (String "157" EmptyString))).
Definition sign_bolt : string :=
  String "226" (String "154" (String "161" EmptyString)).
Definition sign_chart : string :=
  String "240" (String "159" (String "147" (String "138" EmptyString))).
Definition sign_brain : string :=
  String "240" (String "159" (String "167" (String "160" EmptyString))).
Definition sign_cross : string :=
  String "226" (String "157" (String "140" EmptyString)).

(** [s[:n]] *)
Fixpoint take (n : nat) (s : string) : string :=
  match n, s with
  | S n', String c s' => String c (take n' s')
  | _, _ => EmptyString
  end.

Section WithPrints.

Context {Value : Type} {rendering : Rendering Value}.
Variable env : Env Value.

(** [sys.stdout] as [print] meets it: writing a text returns, or raises
    (a [UnicodeEncodeError] when the encoding of the console has no code
    for a character of the text). *)
Variable stdout : trace -> string -> outcome unit.

(** [print(text)] *)
Definition print (text : string) : M unit := fun t => (stdout t text, t).

(** [answer_question], statement by statement. *)
Definition answer_question (question : string) : M (AnswerRecord Value) :=
  try_except
    (_ <- print (sign_thinking ++ " Processing question: " ++ question) ;;
     _ <- print (sign_search ++ " Generating SQL query...") ;;
     sql_query <- _generate_sql_query env question ;;
     _ <- print (sign_memo ++ " Generated query: " ++ take 100 sql_query
                   ++ "...") ;;
     _ <- print (sign_bolt ++ " Executing query...") ;;
     rc <- _execute_query env sql_query ;;
     let '(results, columns) := rc in
     _ <- print (sign_chart ++ " Found " ++ str_nat (List.length results)
                   ++ " records") ;;
     _ <- print (sign_brain ++ " Analyzing results...") ;;
     analysis <- _interpret_results env question results columns ;;
     ret (success_record question sql_query results columns analysis))
    (fun e =>
       _ <- print (sign_cross ++ " Error: " ++ exn_str e) ;;
       ret (failure_record question e)).

End WithPrints.

(** *** A console that encodes with ASCII *)

Definition hex_digit (d : nat) : string :=
  String (nth d (list_ascii_of_string "0123456789abcdef") "0"%char) EmptyString.

(** [n] in [width] hexadecimal digits *)
Fixpoint hex_fixed (width n : nat) : string :=
  match width with
  | O => EmptyString
  | S w => hex_fixed w (n / 16) ++ hex_digit (n mod 16)
  end.

(** The number of bytes of the UTF-8 sequence that [lead] starts. *)
Definition utf8_width (lead : nat) : nat :=
  if Nat.ltb lead 224 then 2 else if Nat.ltb lead 240 then 3 else 4.

(** The code point of the UTF-8 sequence at the head of [bytes]. *)
Definition utf8_code (bytes : list nat) : nat :=
  match bytes with
  | [] => 0
  | lead :: rest =>
      let w := utf8_width lead in
      fold_left (fun acc b => acc * 64 + (b - 128)) (firstn (w - 1) rest)
        (lead - match w with 2 => 192 | 3 => 224 | _ => 240 end)
  end.

(** The characters from the head of [bytes] on that ASCII cannot encode;
    [skip] bytes of the current sequence are still to pass. *)
Fixpoint unencodable_run (skip : nat) (bytes : list nat) : nat :=
  match bytes with
  | [] => 0
  | b :: rest =>
      match skip with
      | S k => unencodable_run k rest
      | O =>
          if Nat.ltb b 128 then 0
          else S (unencodable_run (utf8_width b - 1) rest)
      end
  end.

(** How Python writes a character in the message of the error. *)
Definition escaped (code : nat) : string :=
  if Nat.ltb code 256 then "\x" ++ hex_fixed 2 code
  else if Nat.ltb code (256 * 256) then "\u" ++ hex_fixed 4 code
  else "\U" ++ hex_fixed 8 code.

(** The text of the [UnicodeEncodeError] for the first run of characters
    outside ASCII, which starts at [position] with [bytes]. *)
Definition ascii_codec_error (position : nat) (bytes : list nat) : string :=
  match unencodable_run 0 bytes with
  | 1 =>
      "'ascii' codec can't encode character '" ++ escaped (utf8_code bytes)
        ++ "' in position " ++ str_nat position
        ++ ": ordinal not in range(128)"
  | n =>
      "'ascii' codec can't encode characters in position "
        ++ str_nat position ++ "-" ++ str_nat (position + n - 1)
        ++ ": ordinal not in range(128)"
  end.

Fixpoint ascii_encode (position : nat) (bytes : list nat) : outcome unit :=
  match bytes with
  | [] => Return tt
  | b :: rest =>
      if Nat.ltb b 128 then ascii_encode (S position) rest
      else Raise (mk_exn OtherException (ascii_codec_error position bytes))
  end.

(** [sys.stdout] with the encoding [ascii]. *)
Definition ascii_stdout (t : trace) (text : string) : outcome unit :=
  ascii_encode 0 (map nat_of_ascii (list_ascii_of_string text)).

(** A console that takes every text. *)
Definition utf8_stdout (t : trace) (text : string) : outcome unit := Return tt.

(** A console behind a pipe whose reader leaves once the store is reached:
    from then on [print] raises [BrokenPipeError]. *)
Definition broken_pipe_stdout (t : trace) (text : string) : outcome unit :=
  match t with
  | [] => Return tt
  | _ :: _ => Raise (mk_exn OtherException "[Errno 32] Broken pipe")
  end.

End Printing.

(** [col] is the first of [cols] that [row] lacks. *)
Definition first_missing_column {Value : Type} (row : dict Value)
    (cols : list string) (col : string) : Prop :=
  exists found rest,
    cols = (found ++ col :: rest)%list
    /\ Forall (fun c => dict_get row c <> None) found
    /\ dict_get row col = None.

(** [row] comes after rows of [rows] that have every column of [cols]. *)
Definition first_deficient_row {Value : Type} (rows : list (dict Value))
    (cols : list string) (row : dict Value) : Prop :=
  exists before after,
    rows = (before ++ row :: after)%list /\ well_formed before cols.

(** ** Sanity checks of the string layer *)

(** The string operations on inputs whose Python results are known. *)
Example strip_ex : strip ("  a b " ++ nl) = "a b".
Proof. reflexivity. Qed.

Example split_lines_ex :
  split_lines ("a" ++ nl ++ nl ++ "b" ++ nl) = ["a"; ""; "b"; ""].
Proof. reflexivity. Qed.

Example re_sub_fence_ex1 :
  re_sub_fence "```sql" ("x```sql" ++ nl ++ nl ++ "y```sqlz```")
  = "x" ++ nl ++ "yz```".
Proof. reflexivity. Qed.

Example re_sub_fence_ex2 : re_sub_fence "```" ("````a```" ++ nl) = "`a".
Proof. reflexivity. Qed.

Example str_nat_ex : str_nat 0 = "0" /\ str_nat 120 = "120".
Proof. split; reflexivity. Qed.

Example case_ex :
  upper "aZ{`@[ m" = "AZ{`@[ M" /\ lower "aZ{`@[ M" = "az{`@[ m".
Proof. split; reflexivity. Qed.

Example contains_ex :
  contains "WITH" "A WITH B" = true /\ contains "WITH" "A WIT" = false
  /\ contains "" "" = true.
Proof. repeat split; reflexivity. Qed.

(** ** Facts about the string layer *)

Lemma startswith_prefix (p s : string) :
  startswith s p = true <-> exists rest, s = p ++ rest.
Proof.
  revert s; induction p as [|a p IH]; intros s; simpl.
  - split; [intros _; now exists s | reflexivity].
  - destruct s as [|b s].
    + split; [discriminate | intros [rest H]; discriminate].
    + rewrite andb_true_iff, Ascii.eqb_eq, IH. split.
      * intros [-> [rest ->]]. now exists rest.
      * intros [rest H]. injection H as -> ->. split; [reflexivity | now exists rest].
Qed.

Lemma contains_of_startswith (p s : string) :
  startswith s p = true -> contains p s = true.
Proof. intros H. destruct s; simpl in *; rewrite H; reflexivity. Qed.

(** [s.upper().startswith(kw)] says that [s] begins with a spelling of [kw]
    in some mix of upper and lower case. *)
Lemma upper_cons (c : ascii) (s : string) :
  upper (String c s) = String (upper_char c) (upper s).
Proof. reflexivity. Qed.

(** [s.upper().startswith(kw)] says that [s] begins with a spelling of [kw]
    in some mix of upper and lower case. *)
Lemma startswith_upper (kw s : string) :
  startswith (upper s) kw = true <->
  exists pre rest, s = pre ++ rest /\ upper pre = kw.
Proof.
  revert s; induction kw as [|a kw IH]; intros s.
  - split; [intros _; now exists "", s | reflexivity].
  - destruct s as [|b s].
    + split; [discriminate|].
      intros (pre & rest & H & Hu). destruct pre; simpl in *; discriminate.
    + rewrite upper_cons. cbn [startswith].
      rewrite andb_true_iff, Ascii.eqb_eq, IH. split.
      * intros [Ha (pre & rest & -> & Hu)].
        exists (String b pre), rest. rewrite upper_cons, Hu, Ha.
        split; reflexivity.
      * intros (pre & rest & H & Hu). destruct pre as [|c pre]; [discriminate|].
        rewrite upper_cons in Hu. cbn [append] in H.
        injection H as -> ->. injection Hu as <- <-.
        split; [reflexivity | now exists pre, rest].
Qed.

Lemma starts_with_command_spec (s : string) :
  starts_with_command s = true <-> starts_with_keyword_ci s.
Proof.
  unfold starts_with_command, starts_with_keyword_ci.
  rewrite existsb_exists. split.
  - intros (kw & Hin & H). apply startswith_upper in H.
    destruct H as (pre & rest & H1 & H2). now exists kw, pre, rest.
  - intros (kw & pre & rest & Hin & H1 & H2). exists kw. split; [assumption|].
    apply startswith_upper. now exists pre, rest.
Qed.

(** ** Facts about the fast path *)

Lemma predefined_is_first_match (question : string) :
  _get_predefined_query question = first_match question.
Proof.
  unfold _get_predefined_query, first_match, fast_path_patterns.
  cbn [find fst snd].
  destruct (best_seller_monthly (lower question)); [reflexivity|].
  destruct (top_products_revenue (lower question)); [reflexivity|].
  destruct (monthly_sales (lower question)); [reflexivity|].
  destruct (low_stock (lower question)); reflexivity.
Qed.

Lemma predefined_truthy (question canned : string) :
  _get_predefined_query question = Some canned -> truthy canned = true.
Proof.
  unfold _get_predefined_query.
  destruct (best_seller_monthly (lower question));
    [intros [= <-]; reflexivity|].
  destruct (top_products_revenue (lower question));
    [intros [= <-]; reflexivity|].
  destruct (monthly_sales (lower question)); [intros [= <-]; reflexivity|].
  destruct (low_stock (lower question)); [intros [= <-]; reflexivity|].
  discriminate.
Qed.

Lemma predefined_starts_with_select (question canned : string) :
  _get_predefined_query question = Some canned ->
  startswith (strip canned) "SELECT" = true.
Proof.
  unfold _get_predefined_query.
  destruct (best_seller_monthly (lower question));
    [intros [= <-]; vm_compute; reflexivity|].
  destruct (top_products_revenue (lower question));
    [intros [= <-]; vm_compute; reflexivity|].
  destruct (monthly_sales (lower question));
    [intros [= <-]; vm_compute; reflexivity|].
  destruct (low_stock (lower question));
    [intros [= <-]; vm_compute; reflexivity|].
  discriminate.
Qed.

(** ** Facts about the agent *)

Section AgentFacts.

Context {Value : Type} {rendering : Rendering Value}.
Variable env : Env Value.

Lemma generate_fast_path (question canned : string) (t : trace) :
  _get_predefined_query question = Some canned ->
  _generate_sql_query env question t = (Return (strip canned), t).
Proof.
  intros H. unfold _generate_sql_query.
  rewrite H, (predefined_truthy _ _ H). reflexivity.
Qed.

Lemma generate_from_model (question : string) (t : trace) :
  _get_predefined_query question = None ->
  _generate_sql_query env question t =
  (match llm_invoke env t (sql_prompt question) with
   | Return content =>
       if starts_with_command (cleanup content) then Return (cleanup content)
       else Raise (Exception ("Error generating SQL query: "
                                ++ exn_str invalid_command))
   | Raise e => Raise (Exception ("Error generating SQL query: " ++ exn_str e))
   end, (t ++ [EvInvoke (sql_prompt question)])%list).
Proof.
  intros H. unfold _generate_sql_query. rewrite H.
  unfold try_except, bind, invoke, lift, raise, clean_and_validate.
  destruct (llm_invoke env t (sql_prompt question)) as [content|e];
    [|reflexivity].
  destruct (starts_with_command (cleanup content)); reflexivity.
Qed.

Lemma generate_raises (question : string) (t t' : trace) (e : exn) :
  _generate_sql_query env question t = (Raise e, t') -> GenerationError e.
Proof.
  destruct (_get_predefined_query question) as [canned|] eqn:H.
  - rewrite (generate_fast_path _ _ _ H). discriminate.
  - rewrite (generate_from_model _ _ H).
    destruct (llm_invoke env t (sql_prompt question)) as [content|e0].
    + destruct (starts_with_command (cleanup content)); [discriminate|].
      intros [= <- _]. now eexists.
    + intros [= <- _]. now eexists.
Qed.

Lemma generate_returns (question sql : string) (t t' : trace) :
  _generate_sql_query env question t = (Return sql, t') ->
  starts_with_command sql = true.
Proof.
  destruct (_get_predefined_query question) as [canned|] eqn:H.
  - rewrite (generate_fast_path _ _ _ H). intros [= <- _].
    unfold starts_with_command, sql_commands. cbn [existsb].
    apply predefined_starts_with_select in H.
    apply startswith_prefix in H. destruct H as [rest ->].
    reflexivity.
  - rewrite (generate_from_model _ _ H).
    destruct (llm_invoke env t (sql_prompt question)) as [content|e0];
      [|discriminate].
    destruct (starts_with_command (cleanup content)) eqn:Hc; [|discriminate].
    intros [= <- _]. exact Hc.
Qed.

(** The three ways through [_execute_query]. *)
Lemma execute_query_cases (sql : string) (t : trace) :
  _execute_query env sql t =
  match db_connect env t with
  | Raise e => (Raise (execution_error e), t)
  | Return _ =>
      match db_execute env (t ++ [EvConnect])%list sql with
      | Raise e =>
          (Raise (execution_error e), (t ++ [EvConnect; EvExecute sql])%list)
      | Return (description, rows) =>
          (Return (map (dict_of_row (columns_of description)) rows,
                   columns_of description),
           (t ++ [EvConnect; EvExecute sql; EvClose])%list)
      end
  end.
Proof.
  unfold _execute_query, try_except, bind, _connect_db, cursor_execute,
    conn_close, ret, raise, execution_error.
  destruct (db_connect env t) as [[]|e].
  - destruct (db_execute env (t ++ [EvConnect])%list sql) as [[description rows]|e].
    + rewrite <- !app_assoc. reflexivity.
    + rewrite <- !app_assoc. destruct (exn_kind e); reflexivity.
  - destruct (exn_kind e); reflexivity.
Qed.

Lemma execution_error_is_error (e : exn) : ExecutionError (execution_error e).
Proof.
  unfold ExecutionError, execution_error. exists (exn_str e).
  destruct (exn_kind e); [left | right]; reflexivity.
Qed.

Lemma execute_raises (sql : string) (t t' : trace) (e : exn) :
  _execute_query env sql t = (Raise e, t') -> ExecutionError e.
Proof.
  rewrite execute_query_cases.
  destruct (db_connect env t) as [[]|e0].
  - destruct (db_execute env (t ++ [EvConnect])%list sql) as [[d rows]|e0];
      [discriminate|].
    intros [= <- _]. apply execution_error_is_error.
  - intros [= <- _]. apply execution_error_is_error.
Qed.

(** *** The rows the executor builds carry every column *)

Lemma dict_get_set_same (d : dict Value) (k : string) (v : Value) :
  dict_get (dict_set d k v) k = Some v.
Proof.
  induction d as [|[k' v'] d IH]; simpl.
  - now rewrite String.eqb_refl.
  - destruct (String.eqb k' k) eqn:E; simpl; rewrite E; [reflexivity | exact IH].
Qed.

Lemma dict_get_set_other (d : dict Value) (k k0 : string) (v : Value) :
  dict_get d k0 <> None -> dict_get (dict_set d k v) k0 <> None.
Proof.
  induction d as [|[k' v'] d IH]; simpl; [congruence|].
  destruct (String.eqb k' k) eqn:E; simpl;
    destruct (String.eqb k' k0); auto; congruence.
Qed.

Lemma dict_of_row_has_keys (row : sqlite_row) (keys : list string)
    (d : dict Value) (k : string) :
  In k keys \/ dict_get d k <> None ->
  dict_get (fold_left (fun d k => dict_set d k (row k)) keys d) k <> None.
Proof.
  revert d; induction keys as [|k1 keys IH]; intros d [Hin|Hd]; simpl.
  - destruct Hin.
  - exact Hd.
  - destruct Hin as [->|Hin].
    + apply IH. right. rewrite dict_get_set_same. discriminate.
    + apply IH. now left.
  - apply IH. right. now apply dict_get_set_other.
Qed.

Lemma execute_well_formed (sql : string) (t t' : trace)
    (rows : list (dict Value)) (cols : list string) :
  _execute_query env sql t = (Return (rows, cols), t') -> well_formed rows cols.
Proof.
  rewrite execute_query_cases.
  destruct (db_connect env t) as [[]|e0]; [|discriminate].
  destruct (db_execute env (t ++ [EvConnect])%list sql) as [[d raw]|e0];
    [|discriminate].
  intros [= <- <- _]. unfold well_formed.
  apply Forall_forall. intros row Hrow. apply in_map_iff in Hrow.
  destruct Hrow as (r & <- & _). apply Forall_forall. intros col Hcol.
  unfold dict_of_row. apply dict_of_row_has_keys. now left.
Qed.

(** *** The narrator *)

Lemma row_fields_total (row : dict Value) (cols : list string) :
  Forall (fun col => dict_get row col <> None) cols ->
  exists fs, row_fields row cols = Return fs.
Proof.
  induction 1 as [|col cols Hcol _ [fs IH]]; simpl.
  - now eexists.
  - destruct (dict_get row col); [|congruence]. rewrite IH. now eexists.
Qed.

Lemma render_all_total (rows : list (dict Value)) (cols : list string) :
  well_formed rows cols ->
  forall i txt, exists out, render_all i rows cols txt = Return out.
Proof.
  induction 1 as [|row rows Hrow _ IH]; intros i txt; simpl.
  - now eexists.
  - destruct (row_fields_total _ _ Hrow) as [fs ->]. apply IH.
Qed.

Lemma render_first_total (rows : list (dict Value)) (cols : list string) :
  well_formed rows cols ->
  forall i txt, exists out, render_first i rows cols txt = Return out.
Proof.
  induction 1 as [|row rows Hrow _ IH]; intros i txt; simpl.
  - now eexists.
  - destruct (row_fields_total _ _ Hrow) as [fs ->]. apply IH.
Qed.

Lemma well_formed_firstn (n : nat) (rows : list (dict Value))
    (cols : list string) :
  well_formed rows cols -> well_formed (firstn n rows) cols.
Proof.
  unfold well_formed. intros H. revert n.
  induction H as [|row rows Hrow _ IH]; intros [|n]; simpl.
  - constructor.
  - constructor.
  - constructor.
  - constructor; [exact Hrow | apply IH].
Qed.

Lemma render_results_total (rows : list (dict Value)) (cols : list string) :
  well_formed rows cols -> exists txt, render_results rows cols = Return txt.
Proof.
  intros H. unfold render_results.
  destruct (Nat.leb (List.length rows) 10).
  - now apply render_all_total.
  - apply render_first_total. now apply well_formed_firstn.
Qed.

(** What [_interpret_results] does on a non-empty result set whose rows
    render to [txt]. *)
Lemma interpret_nonempty (question : string) (rows : list (dict Value))
    (cols : list string) (txt : string) (t : trace) :
  rows <> [] ->
  render_results rows cols = Return txt ->
  _interpret_results env question rows cols t =
  (Return match llm_invoke env t
                  (analysis_prompt question (List.length rows) txt) with
          | Return content => strip content
          | Raise e => fallback_text e rows
          end,
   (t ++ [EvInvoke (analysis_prompt question (List.length rows) txt)])%list).
Proof.
  intros Hne Hr. unfold _interpret_results.
  destruct rows as [|row rows]; [congruence|].
  unfold bind, lift, try_except, invoke, ret. rewrite Hr.
  destruct (llm_invoke env t _); reflexivity.
Qed.

Lemma interpret_total (question : string) (rows : list (dict Value))
    (cols : list string) (t : trace) :
  well_formed rows cols ->
  exists txt t', _interpret_results env question rows cols t = (Return txt, t').
Proof.
  intros H. destruct rows as [|row rows].
  - now exists no_data_message, t.
  - destruct (render_results_total _ _ H) as [txt Hr].
    rewrite (interpret_nonempty question _ _ txt t); [|discriminate|exact Hr].
    now eexists _, _.
Qed.

(** *** The orchestrator *)

Lemma answer_generate_fails (question : string) (t t1 : trace) (e : exn) :
  _generate_sql_query env question t = (Raise e, t1) ->
  answer_question env question t = (Return (failure_record question e), t1).
Proof.
  intros H. unfold answer_question, try_except, bind. now rewrite H.
Qed.

Lemma answer_execute_fails (question sql : string) (t t1 t2 : trace) (e : exn) :
  _generate_sql_query env question t = (Return sql, t1) ->
  _execute_query env sql t1 = (Raise e, t2) ->
  answer_question env question t = (Return (failure_record question e), t2).
Proof.
  intros H1 H2. unfold answer_question, try_except, bind. now rewrite H1, H2.
Qed.

Lemma answer_interpret (question sql : string) (t t1 t2 t3 : trace)
    (rows : list (dict Value)) (cols : list string) (o : outcome string) :
  _generate_sql_query env question t = (Return sql, t1) ->
  _execute_query env sql t1 = (Return (rows, cols), t2) ->
  _interpret_results env question rows cols t2 = (o, t3) ->
  answer_question env question t =
  (Return match o with
          | Return txt => success_record question sql rows cols txt
          | Raise e => failure_record question e
          end, t3).
Proof.
  intros H1 H2 H3. unfold answer_question, try_except, bind.
  rewrite H1, H2, H3. destruct o; reflexivity.
Qed.

(** When synthesis and execution succeed, so does the request. *)
Lemma answer_succeeds (question sql : string) (t t1 t2 : trace)
    (rows : list (dict Value)) (cols : list string) :
  _generate_sql_query env question t = (Return sql, t1) ->
  _execute_query env sql t1 = (Return (rows, cols), t2) ->
  exists txt t3,
    _interpret_results env question rows cols t2 = (Return txt, t3)
    /\ answer_question env question t
       = (Return (success_record question sql rows cols txt), t3).
Proof.
  intros H1 H2.
  destruct (interpret_total question rows cols t2
              (execute_well_formed _ _ _ _ _ H2)) as (txt & t3 & H3).
  exists txt, t3. split; [exact H3|].
  now rewrite (answer_interpret _ _ _ _ _ _ _ _ _ H1 H2 H3).
Qed.


(** *** Connections *)

(** On the successful path the connection that was opened is closed. *)
Lemma execute_closes_on_success (sql : string) (t t' : trace)
    (rc : list (dict Value) * list string) :
  _execute_query env sql t = (Return rc, t') ->
  t' = (t ++ [EvConnect; EvExecute sql; EvClose])%list.
Proof.
  rewrite execute_query_cases.
  destruct (db_connect env t) as [[]|e0]; [|discriminate].
  destruct (db_execute env (t ++ [EvConnect])%list sql) as [[d raw]|e0];
    [|discriminate].
  now intros [= _ <-].
Qed.

(** When the statement fails, the handlers are reached with the connection
    open, and they do not close it. *)
Lemma execute_skips_close_on_failure (sql : string) (t : trace) (e : exn) :
  db_connect env t = Return tt ->
  db_execute env (t ++ [EvConnect])%list sql = Raise e ->
  _execute_query env sql t
  = (Raise (execution_error e), (t ++ [EvConnect; EvExecute sql])%list).
Proof.
  intros Hc He. rewrite execute_query_cases, Hc, He. reflexivity.
Qed.

(** ** The claims about the agent *)

(** C1.  For every question that matches a fast-path predicate,
    [_generate_sql_query] returns the statement of the first predicate that
    matches, in the order best seller per month, top products by revenue,
    monthly sales, low stock (surrounding blanks stripped), and the trace
    is left as it was: the language model is not invoked. *)
Theorem fast_path_returns_canned (question canned : string) (t : trace) :
  first_match question = Some canned ->
  _generate_sql_query env question t = (Return (strip canned), t)
  /\ invocations (snd (_generate_sql_query env question t)) = invocations t.
Proof.
  intros H. rewrite <- predefined_is_first_match in H.
  rewrite (generate_fast_path _ _ t H). split; reflexivity.
Qed.

(** C2.  When no pattern matches and the model answers [raw], either
    [_generate_sql_query] returns [cleanup raw] and that text starts, in
    some mix of cases, with SELECT, WITH, CREATE, INSERT, UPDATE or DELETE,
    or it raises a generation error; it raises one when [raw] is empty. *)
Theorem cleanup_valid_or_generation_error (question raw : string) (t : trace) :
  _get_predefined_query question = None ->
  llm_invoke env t (sql_prompt question) = Return raw ->
  ((fst (_generate_sql_query env question t) = Return (cleanup raw)
    /\ starts_with_keyword_ci (cleanup raw))
   \/ (exists e, fst (_generate_sql_query env question t) = Raise e
                 /\ GenerationError e
                 /\ ~ starts_with_keyword_ci (cleanup raw)))
  /\ (raw = "" ->
      exists e, fst (_generate_sql_query env question t) = Raise e
                /\ GenerationError e).
Proof.
  intros Hq Hm. rewrite (generate_from_model _ _ Hq), Hm. cbn [fst]. split.
  - destruct (starts_with_command (cleanup raw)) eqn:Hc.
    + left. split; [reflexivity|]. now apply starts_with_command_spec.
    + right. eexists. split; [reflexivity|]. split; [now eexists|].
      rewrite <- starts_with_command_spec. congruence.
  - intros ->. eexists. split; [reflexivity | now eexists].
Qed.


(** C7.  On an empty result set [_interpret_results] returns the fixed
    message and leaves the trace as it was: the model is not invoked. *)
Theorem narrate_empty_is_fixed_message (question : string)
    (cols : list string) (t : trace) :
  _interpret_results env question [] cols t
  = (Return "No data found for your query.", t)
  /\ invocations (snd (_interpret_results env question [] cols t))
     = invocations t.
Proof. split; reflexivity. Qed.

(** C8.  With no pattern match and a model that returns the fenced output
    of the scenario, the synthesized query is exactly [SELECT 1]. *)
Theorem fenced_output_gives_select_1 (question : string) (t : trace) :
  _get_predefined_query question = None ->
  llm_invoke env t (sql_prompt question)
  = Return ("Here's the SQL query:" ++ nl ++ "```sql" ++ nl ++ "SELECT 1"
              ++ nl ++ "```") ->
  _generate_sql_query env question t
  = (Return "SELECT 1", (t ++ [EvInvoke (sql_prompt question)])%list).
Proof.
  intros Hq Hm. rewrite (generate_from_model _ _ Hq), Hm. reflexivity.
Qed.


(** C10.  Every record of [answer_question] that has [success = false] has
    no synthesized query, also when synthesis had succeeded and a later
    step failed. *)
Theorem failure_record_has_no_query (question : string) (t t' : trace)
    (r : AnswerRecord Value) :
  answer_question env question t = (Return r, t') ->
  success r = false ->
  sql_query r = None.
Proof.
  unfold answer_question, try_except, bind.
  destruct (_generate_sql_query env question t) as [[sql|e] t1].
  - destruct (_execute_query env sql t1) as [[[rows cols]|e] t2].
    + destruct (_interpret_results env question rows cols t2) as [[txt|e] t3];
        intros [= <- _]; [discriminate | reflexivity].
    + intros [= <- _]. reflexivity.
  - intros [= <- _]. reflexivity.
Qed.

End AgentFacts.

(** ** The line scan against the specification's wording *)

Lemma scan_after_found (lines acc : list string) :
  fold_left scan_line lines (true, acc) = (true, (acc ++ map strip lines)%list).
Proof.
  revert acc; induction lines as [|line lines IH]; intros acc; simpl.
  - now rewrite app_nil_r.
  - rewrite orb_true_r, IH, <- app_assoc. reflexivity.
Qed.

Lemma starts_with_command_cases (s : string) :
  starts_with_command s = true ->
  startswith (upper s) "SELECT" = true
  \/ existsb (fun keyword => contains keyword (upper s)) other_keywords = true.
Proof.
  unfold starts_with_command, sql_commands, other_keywords. cbn [existsb].
  destruct (startswith (upper s) "SELECT"); [now left|]. intros H. right.
  rewrite orb_false_l in H. rewrite !orb_true_iff in H. rewrite !orb_true_iff.
  repeat match type of H with
         | _ \/ _ => destruct H as [H|H]
         end;
    try discriminate H;
    apply contains_of_startswith in H; rewrite H; tauto.
Qed.

(** Where the preamble is quiet, the scan does what the specification
    says. *)
Lemma scan_lines_quiet (lines : list string) :
  quiet_preamble lines = true ->
  scan_lines lines = skip_to_first_keyword_line lines.
Proof.
  unfold scan_lines. induction lines as [|line lines IH]; [reflexivity|].
  cbn [quiet_preamble skip_to_first_keyword_line fold_left]. intros H.
  destruct (starts_with_command (strip line)) eqn:Hc.
  - assert (Hs : scan_line (false, []) line = (true, [strip line])).
    { unfold scan_line. destruct (starts_with_command_cases _ Hc) as [-> | ->];
        [reflexivity|].
      destruct (startswith (upper (strip line)) "SELECT"); reflexivity. }
    rewrite Hs, scan_after_found. reflexivity.
  - cbn [orb] in H. apply andb_true_iff in H. destruct H as [Hm Hq].
    apply negb_true_iff in Hm. unfold mentions_keyword in Hm.
    assert (Hs : scan_line (false, []) line = (false, [])).
    { unfold scan_line. rewrite Hm.
      unfold starts_with_command, sql_commands in Hc. cbn [existsb] in Hc.
      apply orb_false_iff in Hc. destruct Hc as [-> _]. reflexivity. }
    rewrite Hs. now apply IH.
Qed.

(** ** The claims at concrete worlds *)

Import Scenario.

(** C1 at a question that also matches the last predicate, with a model
    that is down: the second statement is returned, nothing is invoked. *)
Lemma fast_path_returns_canned_witness :
  first_match "Top product revenue, and what is low stock?"
  = Some top_products_revenue_sql
  /\ _generate_sql_query model_down
       "Top product revenue, and what is low stock?" []
     = (Return (strip top_products_revenue_sql), [])
  /\ low_stock (lower "Top product revenue, and what is low stock?") = true.
Proof.
  split; [vm_compute; reflexivity|]. split; [|vm_compute; reflexivity].
  apply (fast_path_returns_canned model_down
           "Top product revenue, and what is low stock?"
           top_products_revenue_sql []).
  vm_compute; reflexivity.
Defined.

(** C2 at a model that answers with the empty text. *)
Lemma cleanup_valid_or_generation_error_witness :
  _get_predefined_query "How many orders are pending?" = None
  /\ llm_invoke (answering "") [] (sql_prompt "How many orders are pending?")
     = Return ""
  /\ exists e,
       fst (_generate_sql_query (answering "")
              "How many orders are pending?" []) = Raise e
       /\ GenerationError e.
Proof.
  split; [vm_compute; reflexivity|]. split; [reflexivity|].
  apply (cleanup_valid_or_generation_error (answering "")
           "How many orders are pending?" "" []);
    [vm_compute; reflexivity | reflexivity | reflexivity].
Defined.

(** C4 at [prose_output].  Nothing is stripped from it before the scan;
    its first line does not start with an SQL command, yet the scan keeps
    it, because the line holds WITH, where the specification's scan keeps
    [SELECT 1] alone; the request then fails validation. *)
Theorem scan_keeps_prose_line_with_keyword :
  strip_fences_and_prefixes prose_output = prose_output
  /\ starts_with_command "This query works with the orders table:" = false
  /\ scan_lines (split_lines prose_output)
     = ["This query works with the orders table:"; "SELECT 1"]
  /\ skip_to_first_keyword_line (split_lines prose_output) = ["SELECT 1"]
  /\ clean_and_validate prose_output = Raise invalid_command.
Proof. repeat split; vm_compute; reflexivity. Qed.

(** C5 at a store that rejects the statement: [_execute_query] raises with
    one connection opened and none closed. *)
Theorem execute_query_leaves_connection_open :
  _execute_query rejecting "SELECT id FROM orders_archive" []
  = (Raise (Exception "Database error: no such table: orders_archive"),
     [EvConnect; EvExecute "SELECT id FROM orders_archive"])
  /\ count_connect
       (snd (_execute_query rejecting "SELECT id FROM orders_archive" [])) = 1
  /\ count_close
       (snd (_execute_query rejecting "SELECT id FROM orders_archive" [])) = 0.
Proof. repeat split; vm_compute; reflexivity. Qed.


(** C8 at a question about pending orders. *)
Lemma fenced_output_gives_select_1_witness :
  _get_predefined_query "How many orders are pending?" = None
  /\ _generate_sql_query (answering fenced_output)
       "How many orders are pending?" []
     = (Return "SELECT 1", [EvInvoke (sql_prompt "How many orders are pending?")]).
Proof.
  split; [vm_compute; reflexivity|].
  apply (fenced_output_gives_select_1 (answering fenced_output)
           "How many orders are pending?" []);
    [vm_compute; reflexivity | reflexivity].
Defined.



(** C10 at a store that rejects the statement of the fast path: synthesis
    had succeeded, and the record holds no query. *)
Lemma failure_record_has_no_query_witness :
  _generate_sql_query rejecting "What should we reorder?" []
  = (Return (strip low_stock_sql), [])
  /\ success (failure_record (Value := string) "What should we reorder?"
                (Exception "Database error: no such table: orders_archive"))
     = false
  /\ sql_query (failure_record (Value := string) "What should we reorder?"
                  (Exception "Database error: no such table: orders_archive"))
     = None.
Proof.
  split; [vm_compute; reflexivity|]. split; [reflexivity|].
  apply (failure_record_has_no_query rejecting "What should we reorder?" []
           [EvConnect; EvExecute (strip low_stock_sql)]);
    [vm_compute; reflexivity | reflexivity].
Defined.

(** ** Further properties of the agent *)

(** *** The fast path looks at the question through [lower] only *)

Lemma lower_upper_char (c : ascii) : lower_char (upper_char c) = lower_char c.
Proof.
  destruct c as [[] [] [] [] [] [] [] []]; vm_compute; reflexivity.
Qed.

Lemma lower_lower_char (c : ascii) : lower_char (lower_char c) = lower_char c.
Proof.
  destruct c as [[] [] [] [] [] [] [] []]; vm_compute; reflexivity.
Qed.

Lemma lower_upper (s : string) : lower (upper s) = lower s.
Proof.
  induction s as [|c s IH]; [reflexivity|].
  change (String (lower_char (upper_char c)) (lower (upper s))
          = String (lower_char c) (lower s)).
  now rewrite lower_upper_char, IH.
Qed.

Lemma lower_lower (s : string) : lower (lower s) = lower s.
Proof.
  induction s as [|c s IH]; [reflexivity|].
  change (String (lower_char (lower_char c)) (lower (lower s))
          = String (lower_char c) (lower s)).
  now rewrite lower_lower_char, IH.
Qed.

(** X1.  The fast path does not see the case of the letters of a question:
    the question in capitals, or in small letters, gets the answer of the
    question as typed. *)
Theorem predefined_ignores_case (question : string) :
  _get_predefined_query (upper question) = _get_predefined_query question
  /\ _get_predefined_query (lower question) = _get_predefined_query question.
Proof.
  unfold _get_predefined_query. now rewrite lower_upper, lower_lower.
Qed.

Section AgentExtras.

Context {Value : Type} {rendering : Rendering Value}.
Variable env : Env Value.

(** *** What each stage adds to the trace *)

Lemma generate_trace (question : string) (t : trace) :
  exists gen,
    snd (_generate_sql_query env question t) = (t ++ gen)%list
    /\ (gen = [] \/ gen = [EvInvoke (sql_prompt question)]).
Proof.
  destruct (_get_predefined_query question) as [canned|] eqn:H.
  - exists []. rewrite (generate_fast_path env _ _ t H), app_nil_r. now split; [|left].
  - eexists. rewrite (generate_from_model env _ t H). split; [reflexivity | now right].
Qed.

Lemma execute_trace (sql : string) (t : trace) :
  exists exe,
    snd (_execute_query env sql t) = (t ++ exe)%list
    /\ match fst (_execute_query env sql t) with
       | Return _ => exe = [EvConnect; EvExecute sql; EvClose]
       | Raise _ => exe = [] \/ exe = [EvConnect; EvExecute sql]
       end.
Proof.
  rewrite execute_query_cases.
  destruct (db_connect env t) as [[]|e].
  - destruct (db_execute env (t ++ [EvConnect])%list sql) as [[d raw]|e];
      eexists; (split; [reflexivity|]); [reflexivity | now right].
  - exists []. rewrite app_nil_r. split; [reflexivity | now left].
Qed.

Lemma interpret_trace (question : string) (rows : list (dict Value))
    (cols : list string) (t : trace) :
  exists nar,
    snd (_interpret_results env question rows cols t) = (t ++ nar)%list
    /\ (nar = [] \/ exists prompt, nar = [EvInvoke prompt]).
Proof.
  destruct rows as [|row rows].
  - exists []. rewrite app_nil_r. split; [reflexivity | now left].
  - destruct (render_results (row :: rows) cols) as [txt|e] eqn:Hr.
    + eexists.
      rewrite (interpret_nonempty env question _ _ txt t);
        [|discriminate|exact Hr].
      split; [reflexivity|]. right. now eexists.
    + exists []. rewrite app_nil_r. unfold _interpret_results, bind, lift.
      rewrite Hr. split; [reflexivity | now left].
Qed.

(** The events of one request, stage by stage. *)
Lemma answer_trace (question : string) (t : trace) :
  exists gen exe nar,
    snd (answer_question env question t) = (t ++ gen ++ exe ++ nar)%list
    /\ (gen = [] \/ gen = [EvInvoke (sql_prompt question)])
    /\ (exe = []
        \/ exists sql,
             starts_with_command sql = true
             /\ (exe = [EvConnect; EvExecute sql]
                 \/ exe = [EvConnect; EvExecute sql; EvClose]))
    /\ (nar = [] \/ exists prompt, nar = [EvInvoke prompt]).
Proof.
  unfold answer_question, try_except, bind.
  destruct (generate_trace question t) as (gen & Hg & Hgen).
  destruct (_generate_sql_query env question t) as [[sql|e] t1] eqn:Eg;
    cbn [snd] in Hg; subst t1.
  - pose proof (generate_returns env _ _ _ _ Eg) as Hv.
    destruct (execute_trace sql (t ++ gen)%list) as (exe & He & Hexe).
    destruct (_execute_query env sql (t ++ gen)%list) as [[[rows cols]|e] t2];
      cbn [snd fst] in He, Hexe; subst t2.
    + destruct (interpret_trace question rows cols ((t ++ gen) ++ exe)%list)
        as (nar & Hn & Hnar).
      destruct (_interpret_results env question rows cols _) as [[txt|e] t3];
        cbn [snd] in Hn; subst t3;
        exists gen, exe, nar; cbn [snd]; rewrite <- !app_assoc;
        (split; [reflexivity|]); (split; [exact Hgen|]);
        (split; [|exact Hnar]); right; exists sql; subst exe; (split; [exact Hv|]); now right.
    + exists gen, exe, []. cbn [snd]. rewrite app_nil_r, <- app_assoc.
      split; [reflexivity|]. split; [exact Hgen|]. split; [|now left].
      destruct Hexe as [->| ->]; [now left|].
      right. exists sql. split; [exact Hv | now left].
  - exists gen, [], []. cbn [snd]. rewrite !app_nil_r.
    split; [reflexivity|]. split; [exact Hgen|]. split; now left.
Qed.

(** X8.  No retries: one request invokes the model twice at most (once for the
    query, once for the narrative), opens one connection at most, sends
    one statement at most, and only extends the trace it starts from. *)
Theorem answer_question_calls_once (question : string) (t : trace) :
  exists evs,
    snd (answer_question env question t) = (t ++ evs)%list
    /\ List.length (invocations evs) <= 2
    /\ count_connect evs <= 1
    /\ List.length (executed evs) <= 1
    /\ count_close evs <= count_connect evs.
Proof.
  destruct (answer_trace question t) as (gen & exe & nar & H & Hg & He & Hn).
  exists (gen ++ exe ++ nar)%list. split; [exact H|].
  destruct Hg as [-> | ->];
    (destruct He as [-> | (sql & _ & [-> | ->])]);
    (destruct Hn as [-> | (prompt & ->)]);
    cbn; repeat split; lia.
Qed.

(** X9.  Only validated text reaches the store: every statement one request
    sends starts with SELECT, WITH, CREATE, INSERT, UPDATE or DELETE in some
    mix of cases. *)
Theorem only_validated_statements_are_executed (question : string)
    (t : trace) :
  exists evs,
    snd (answer_question env question t) = (t ++ evs)%list
    /\ forall sql, In sql (executed evs) -> starts_with_keyword_ci sql.
Proof.
  destruct (answer_trace question t) as (gen & exe & nar & H & Hg & He & Hn).
  exists (gen ++ exe ++ nar)%list. split; [exact H|]. intros sql0 Hin.
  apply starts_with_command_spec.
  destruct Hg as [-> | ->];
    (destruct He as [-> | (sql & Hv & [-> | ->])]);
    (destruct Hn as [-> | (prompt & ->)]);
    cbn in Hin; intuition (subst; assumption).
Qed.


(** *** Which requests fail, and what a success holds *)


(** X11.  A record with [success = true] has no error, holds the statement that
    was sent to the store (the only one, and a validated one), counts its
    rows, has rows that map every column, and its request closed the one
    connection it opened. *)
Theorem success_record_is_consistent (question : string) (t t' : trace)
    (r : AnswerRecord Value) :
  answer_question env question t = (Return r, t') ->
  success r = true ->
  exists sql evs,
    error r = None
    /\ sql_query r = Some sql
    /\ starts_with_keyword_ci sql
    /\ record_count r = List.length (results r)
    /\ well_formed (results r) (columns r)
    /\ t' = (t ++ evs)%list
    /\ executed evs = [sql]
    /\ count_connect evs = 1 /\ count_close evs = 1.
Proof.
  intros Ha Hs.
  destruct (generate_trace question t) as (gen & Hgt & Hgen).
  destruct (_generate_sql_query env question t) as [[sql|e] t1] eqn:Hg;
    cbn [snd] in Hgt.
  - destruct (_execute_query env sql t1) as [[[rows cols]|e] t2] eqn:He.
    + destruct (interpret_trace question rows cols t2) as (nar & Hnt & Hnar).
      destruct (answer_succeeds env _ _ _ _ _ _ _ Hg He)
        as (txt & t3 & Hi & H).
      rewrite Hi in Hnt. cbn [snd] in Hnt.
      rewrite H in Ha. injection Ha as <- <-.
      pose proof (execute_closes_on_success env _ _ _ _ He) as Ht2.
      exists sql, (gen ++ [EvConnect; EvExecute sql; EvClose] ++ nar)%list.
      split; [reflexivity|]. split; [reflexivity|].
      split; [apply starts_with_command_spec;
              exact (generate_returns env _ _ _ _ Hg)|].
      split; [reflexivity|].
      split; [exact (execute_well_formed env _ _ _ _ _ He)|].
      split; [rewrite Hnt, Ht2, Hgt, <- !app_assoc; reflexivity|].
      destruct Hgen as [-> | ->]; destruct Hnar as [-> | (prompt & ->)];
        repeat split; reflexivity.
    + rewrite (answer_execute_fails env _ _ _ _ _ _ Hg He) in Ha.
      injection Ha as <- _. discriminate Hs.
  - rewrite (answer_generate_fails env _ _ _ _ Hg) in Ha.
    injection Ha as <- _. discriminate Hs.
Qed.




(** *** The rows of the executor *)

Lemma dict_get_set (d : dict Value) (k k0 : string) (v : Value) :
  dict_get (dict_set d k v) k0
  = if String.eqb k k0 then Some v else dict_get d k0.
Proof.
  induction d as [|[k' v'] d IH]; simpl.
  - reflexivity.
  - destruct (String.eqb k' k) eqn:E; simpl.
    + apply String.eqb_eq in E. subst k'.
      destruct (String.eqb k k0); reflexivity.
    + destruct (String.eqb k' k0) eqn:E0; [|exact IH].
      apply String.eqb_eq in E0. subst k0. now rewrite String.eqb_sym, E.
Qed.

Lemma dict_keys_set (d : dict Value) (k : string) (v : Value) :
  map fst (dict_set d k v)
  = if existsb (String.eqb k) (map fst d) then map fst d
    else (map fst d ++ [k])%list.
Proof.
  induction d as [|[k' v'] d IH]; simpl; [reflexivity|].
  rewrite (String.eqb_sym k k').
  destruct (String.eqb k' k); simpl; [reflexivity|].
  rewrite IH. destruct (existsb (String.eqb k) (map fst d)); reflexivity.
Qed.

Lemma existsb_eqb_in (k : string) (l : list string) :
  existsb (String.eqb k) l = true <-> In k l.
Proof.
  rewrite existsb_exists. split.
  - intros (x & Hin & E). apply String.eqb_eq in E. now subst.
  - intros H. exists k. split; [exact H | apply String.eqb_refl].
Qed.

Lemma dict_of_row_fold (row : sqlite_row) (keys : list string) (d : dict Value) :
  let d' := fold_left (fun d k => dict_set d k (row k)) keys d in
  (forall c, dict_get d' c
             = if existsb (String.eqb c) keys then Some (row c)
               else dict_get d c)
  /\ (NoDup (map fst d) -> NoDup (map fst d'))
  /\ (forall c, In c (map fst d') <-> In c (map fst d) \/ In c keys).
Proof.
  revert d; induction keys as [|k keys IH]; intros d; cbn zeta.
  - cbn. split; [reflexivity|]. split; [tauto|]. intros c; tauto.
  - cbn [fold_left]. destruct (IH (dict_set d k (row k))) as (Hget & Hnd & Hin).
    cbn zeta in Hget, Hnd, Hin. split; [|split].
    + intros c. rewrite Hget, dict_get_set. cbn [existsb].
      rewrite (String.eqb_sym c k).
      destruct (existsb (String.eqb c) keys); [now rewrite orb_true_r|].
      rewrite orb_false_r. destruct (String.eqb k c) eqn:E; [|reflexivity].
      apply String.eqb_eq in E. now subst.
    + intros Hd. apply Hnd. rewrite dict_keys_set.
      destruct (existsb (String.eqb k) (map fst d)) eqn:E; [exact Hd|].
      apply NoDup_app; [exact Hd | repeat constructor; intros [] |].
      intros x Hx [<-|[]]. apply existsb_eqb_in in Hx. congruence.
    + intros c. rewrite Hin, dict_keys_set.
      destruct (existsb (String.eqb k) (map fst d)) eqn:E.
      * apply existsb_eqb_in in E. cbn [In]. intuition (subst; auto).
      * rewrite in_app_iff. cbn [In]. intuition (subst; auto).
Qed.

(** [dict(row)] holds one entry per distinct column name, and looking a
    column up gives back the value the row has for it. *)
Lemma dict_of_row_spec (keys : list string) (row : @sqlite_row Value) :
  (forall c, In c keys -> dict_get (dict_of_row keys row) c = Some (row c))
  /\ (forall c, ~ In c keys -> dict_get (dict_of_row keys row) c = None)
  /\ NoDup (map fst (dict_of_row keys row))
  /\ (forall c, In c (map fst (dict_of_row keys row)) <-> In c keys).
Proof.
  destruct (dict_of_row_fold row keys []) as (Hget & Hnd & Hin).
  cbn zeta in Hget, Hnd, Hin. fold (dict_of_row keys row) in Hget, Hnd, Hin.
  split; [|split; [|split]].
  - intros c Hc. rewrite Hget. apply existsb_eqb_in in Hc. now rewrite Hc.
  - intros c Hc. rewrite Hget.
    destruct (existsb (String.eqb c) keys) eqn:E; [|reflexivity].
    apply existsb_eqb_in in E. contradiction.
  - apply Hnd. constructor.
  - intros c. rewrite Hin. cbn. tauto.
Qed.

(** X6.  What a successful [_execute_query] hands back: the column names of the
    description (none when there is no description), and as many rows as
    were fetched, in order, each a dict with one entry per distinct column
    name whose value is the fetched row's value for that column. *)
Theorem execute_query_rows_round_trip (sql : string) (t : trace)
    (description : option (list string)) (fetched : list sqlite_row) :
  db_connect env t = Return tt ->
  db_execute env (t ++ [EvConnect])%list sql = Return (description, fetched) ->
  exists rows,
    fst (_execute_query env sql t) = Return (rows, columns_of description)
    /\ List.length rows = List.length fetched
    /\ forall i row, nth_error fetched i = Some row ->
         exists d,
           nth_error rows i = Some d
           /\ (forall c, In c (columns_of description) ->
                         dict_get d c = Some (row c))
           /\ (forall c, ~ In c (columns_of description) ->
                         dict_get d c = None)
           /\ NoDup (map fst d).
Proof.
  intros Hc He. rewrite execute_query_cases, Hc, He. cbn [fst].
  exists (map (dict_of_row (columns_of description)) fetched).
  split; [reflexivity|]. split; [apply length_map|].
  intros i row Hi. exists (dict_of_row (columns_of description) row).
  split; [now apply map_nth_error|].
  destruct (dict_of_row_spec (columns_of description) row) as (H1 & H2 & H3 & _).
  auto.
Qed.


(** *** The narrator on rows that lack a column *)

Lemma row_fields_cases (row : dict Value) (cols : list string) :
  (Forall (fun col => dict_get row col <> None) cols
   /\ exists fs, row_fields row cols = Return fs)
  \/ exists col,
       first_missing_column row cols col
       /\ row_fields row cols = Raise (mk_exn OtherException (repr_key col)).
Proof.
  induction cols as [|col cols IH]; cbn [row_fields].
  - left. split; [constructor | now eexists].
  - destruct (dict_get row col) as [v|] eqn:E.
    + destruct IH as [[Hall [fs ->]] | (c & (found & rest & -> & Hf & Hc) & ->)].
      * left. split; [constructor; [congruence | exact Hall] | now eexists].
      * right. exists c. split; [|reflexivity].
        exists (col :: found), rest. split; [reflexivity|].
        split; [constructor; [congruence | exact Hf] | exact Hc].
    + right. exists col. split; [|reflexivity].
      exists [], cols. split; [reflexivity|]. split; [constructor | exact E].
Qed.

Lemma first_deficient_row_cons (row0 row : dict Value)
    (rows : list (dict Value)) (cols : list string) :
  Forall (fun col => dict_get row0 col <> None) cols ->
  first_deficient_row rows cols row ->
  first_deficient_row (row0 :: rows) cols row.
Proof.
  intros H0 (before & after & -> & Hwf).
  exists (row0 :: before), after. split; [reflexivity|]. now constructor.
Qed.

Lemma render_all_cases (rows : list (dict Value)) (cols : list string) :
  well_formed rows cols
  \/ exists row col,
       first_deficient_row rows cols row
       /\ first_missing_column row cols col
       /\ forall i txt,
            render_all i rows cols txt
            = Raise (mk_exn OtherException (repr_key col)).
Proof.
  induction rows as [|row rows IH].
  - left. constructor.
  - destruct (row_fields_cases row cols) as [[Hall [fs Hfs]] | (c & Hm & Hr)].
    + destruct IH as [Hwf | (r & c & Hd & Hm & Hr)].
      * left. now constructor.
      * right. exists r, c. split; [now apply first_deficient_row_cons|].
        split; [exact Hm|]. intros i txt. cbn [render_all].
        rewrite Hfs. apply Hr.
    + right. exists row, c. split; [exists [], rows; split; [reflexivity | constructor]|].
      split; [exact Hm|]. intros i txt. cbn [render_all]. now rewrite Hr.
Qed.

Lemma render_first_cases (rows : list (dict Value)) (cols : list string) :
  well_formed rows cols
  \/ exists row col,
       first_deficient_row rows cols row
       /\ first_missing_column row cols col
       /\ forall i txt,
            render_first i rows cols txt
            = Raise (mk_exn OtherException (repr_key col)).
Proof.
  induction rows as [|row rows IH].
  - left. constructor.
  - destruct (row_fields_cases row cols) as [[Hall [fs Hfs]] | (c & Hm & Hr)].
    + destruct IH as [Hwf | (r & c & Hd & Hm & Hr)].
      * left. now constructor.
      * right. exists r, c. split; [now apply first_deficient_row_cons|].
        split; [exact Hm|]. intros i txt. cbn [render_first].
        rewrite Hfs. apply Hr.
    + right. exists row, c. split; [exists [], rows; split; [reflexivity | constructor]|].
      split; [exact Hm|]. intros i txt. cbn [render_first]. now rewrite Hr.
Qed.

(** X7.  [_interpret_results] looks columns up in the rows it renders, before
    its own [try]: it returns a text exactly when each rendered row (all
    rows up to ten, the first five beyond) has every column.  Otherwise it
    raises, without invoking the model, the [KeyError] of one column of
    one rendered row: the row is the first rendered row that lacks a
    column, the column is the first one that this row lacks. *)
Theorem narrate_fails_exactly_on_missing_column (question : string)
    (rows : list (dict Value)) (cols : list string) (t : trace) :
  (well_formed (rendered_rows rows) cols ->
   exists txt t', _interpret_results env question rows cols t = (Return txt, t'))
  /\ (~ well_formed (rendered_rows rows) cols ->
      exists row col,
        In row (rendered_rows rows) /\ In col cols
        /\ dict_get row col = None
        /\ first_deficient_row (rendered_rows rows) cols row
        /\ first_missing_column row cols col
        /\ _interpret_results env question rows cols t
           = (Raise (mk_exn OtherException (repr_key col)), t)).
Proof.
  destruct rows as [|row0 rows].
  - split; [intros _; now exists no_data_message, t|].
    intros H. exfalso. apply H. constructor.
  - set (rs := row0 :: rows). unfold rendered_rows.
    assert (Hne : rs <> []) by discriminate.
    split.
    + intros Hwf.
      assert (exists txt, render_results rs cols = Return txt) as [txt Hr].
      { unfold render_results. destruct (Nat.leb (List.length rs) 10).
        - now apply render_all_total.
        - now apply render_first_total. }
      rewrite (interpret_nonempty env question rs cols txt t Hne Hr).
      now eexists _, _.
    + intros Hn.
      assert (exists row col,
                first_deficient_row
                  (if Nat.leb (List.length rs) 10 then rs else firstn 5 rs)
                  cols row
                /\ first_missing_column row cols col
                /\ render_results rs cols
                   = Raise (mk_exn OtherException (repr_key col)))
        as (row & col & Hd & Hm & Hr).
      { unfold render_results. destruct (Nat.leb (List.length rs) 10).
        - destruct (render_all_cases rs cols) as [Hwf | (r & c & Hd & Hm & Hr)];
            [contradiction | now exists r, c].
        - destruct (render_first_cases (firstn 5 rs) cols)
            as [Hwf | (r & c & Hd & Hm & Hr)];
            [contradiction | now exists r, c]. }
      exists row, col.
      split; [destruct Hd as (before & after & -> & _);
              apply in_or_app; right; now left|].
      split; [destruct Hm as (found & rest & -> & _);
              apply in_or_app; right; now left|].
      split; [now destruct Hm as (found & rest & _ & _ & Hc)|].
      split; [exact Hd|]. split; [exact Hm|].
      unfold _interpret_results, rs, bind, lift. fold rs. now rewrite Hr.
Qed.

End AgentExtras.

(** ** Further properties of the clean-up pass *)

(** *** The line scan *)

(** The test of the scan for keeping a first line. *)
Lemma scan_line_first (line : string) :
  scan_line (false, []) line
  = if startswith (upper (strip line)) "SELECT" || mentions_keyword line
    then (true, [strip line]) else (false, []).
Proof.
  unfold scan_line, mentions_keyword.
  destruct (startswith (upper (strip line)) "SELECT"); [reflexivity|].
  cbn [orb negb andb].
  destruct (existsb _ other_keywords); reflexivity.
Qed.

(** The scan splits the lines in two: a run of leading lines that it
    drops, and the rest, which it keeps, stripped. *)
Lemma scan_lines_suffix (lines : list string) :
  exists dropped kept,
    lines = (dropped ++ kept)%list
    /\ scan_lines lines = map strip kept
    /\ Forall (fun line =>
                 startswith (upper (strip line)) "SELECT" = false
                 /\ mentions_keyword line = false) dropped
    /\ match kept with
       | [] => True
       | line :: _ =>
           startswith (upper (strip line)) "SELECT" = true
           \/ mentions_keyword line = true
       end.
Proof.
  unfold scan_lines. induction lines as [|line lines IH].
  - exists [], []. repeat split; constructor.
  - cbn [fold_left]. rewrite scan_line_first.
    destruct (startswith (upper (strip line)) "SELECT" || mentions_keyword line)
      eqn:E.
    + exists [], (line :: lines). rewrite scan_after_found.
      split; [reflexivity|]. split; [reflexivity|]. split; [constructor|].
      now apply orb_true_iff in E.
    + destruct IH as (dropped & kept & -> & Hs & Hd & Hk).
      exists (line :: dropped), kept.
      split; [reflexivity|]. split; [exact Hs|]. split; [|exact Hk].
      constructor; [|exact Hd]. now apply orb_false_iff in E.
Qed.

(** *** One text inside another *)

Lemma sapp_assoc (a b c : string) : (a ++ b) ++ c = a ++ b ++ c.
Proof. induction a as [|x a IH]; simpl; [reflexivity | now rewrite IH]. Qed.

Lemma sapp_nil_r (a : string) : a ++ "" = a.
Proof. induction a as [|x a IH]; simpl; [reflexivity | now rewrite IH]. Qed.

Lemma slength_app (a b : string) :
  String.length (a ++ b) = String.length a + String.length b.
Proof. induction a as [|x a IH]; simpl; [reflexivity | now rewrite IH]. Qed.

(** [sub in s] says that [s] is some text, then [sub], then some text. *)
Lemma contains_spec (sub s : string) :
  contains sub s = true <-> exists a b, s = a ++ sub ++ b.
Proof.
  split.
  - induction s as [|c s IH]; cbn [contains]; rewrite orb_true_iff.
    + intros [H|H]; [|discriminate]. apply startswith_prefix in H.
      destruct H as [rest ->]. now exists "", rest.
    + intros [H|H].
      * apply startswith_prefix in H. destruct H as [rest ->]. now exists "", rest.
      * destruct (IH H) as (a & b & ->). now exists (String c a), b.
  - intros (a & b & ->). induction a as [|c a IH].
    + apply contains_of_startswith, startswith_prefix. now exists b.
    + cbn [append contains]. rewrite IH. apply orb_true_r.
Qed.

Lemma contains_inside (sub s s' a b : string) :
  s = a ++ s' ++ b -> contains sub s' = true -> contains sub s = true.
Proof.
  intros -> H. apply contains_spec in H. destruct H as (x & y & ->).
  apply contains_spec. exists (a ++ x), (y ++ b).
  now rewrite !sapp_assoc.
Qed.

Lemma lstrip_suffix (s : string) : exists a, s = a ++ lstrip s.
Proof.
  induction s as [|c s [a IH]]; [now exists ""|]. cbn [lstrip].
  destruct (is_space c); [|now exists ""].
  exists (String c a). cbn. now rewrite <- IH.
Qed.

Lemma rstrip_prefix (s : string) : exists b, s = rstrip s ++ b.
Proof.
  induction s as [|c s [b IH]]; [now exists ""|]. cbn [rstrip].
  destruct (rstrip s) as [|d r] eqn:E.
  - destruct (is_space c).
    + now exists (String c s).
    + exists s. reflexivity.
  - exists b. cbn. f_equal. exact IH.
Qed.

Lemma strip_inside (s : string) : exists a b, s = a ++ strip s ++ b.
Proof.
  unfold strip. destruct (lstrip_suffix s) as [a Ha].
  destruct (rstrip_prefix (lstrip s)) as [b Hb].
  exists a, b. now rewrite <- Hb.
Qed.

Lemma drop_suffix (n : nat) (s : string) : exists a, s = a ++ drop n s.
Proof.
  revert s; induction n as [|n IH]; intros s; [now exists ""|].
  destruct s as [|c s]; [now exists ""|]. cbn [drop].
  destruct (IH s) as [a Ha]. exists (String c a). cbn. now rewrite <- Ha.
Qed.

Lemma contains_strip (sub s : string) :
  contains sub (strip s) = true -> contains sub s = true.
Proof.
  destruct (strip_inside s) as (a & b & H). now apply contains_inside with a b.
Qed.

Lemma contains_drop (sub s : string) (n : nat) :
  contains sub (drop n s) = true -> contains sub s = true.
Proof.
  destruct (drop_suffix n s) as (a & H). apply contains_inside with a "".
  now rewrite sapp_nil_r.
Qed.

(** *** The fences are gone after [re.sub] *)

Lemma sub_del_skip (pat : string) (k : nat) (s : string) :
  sub_del pat k s = sub_del pat 0 (drop k s).
Proof.
  revert k; induction s as [|c s IH]; intros [|k]; try reflexivity.
  cbn [sub_del drop]. apply IH.
Qed.

Lemma sub_del_match (pat : string) (c : ascii) (s : string) :
  startswith (String c s) pat = true ->
  exists k, sub_del pat 0 (String c s) = sub_del pat 0 (drop k s).
Proof.
  intros H. cbn [sub_del]. rewrite H. eexists. apply sub_del_skip.
Qed.

Lemma sub_del_keep (pat : string) (c : ascii) (s : string) :
  startswith (String c s) pat = false ->
  sub_del pat 0 (String c s) = String c (sub_del pat 0 s).
Proof. intros H. cbn [sub_del]. now rewrite H. Qed.

Lemma length_drop_le (k : nat) (s : string) :
  String.length (drop k s) <= String.length s.
Proof.
  revert s; induction k as [|k IH]; intros [|c s]; cbn; try lia.
  specialize (IH s). lia.
Qed.

(** A text that is left alone has no occurrence to delete. *)
Lemma sub_del_without_occurrence (pat s : string) :
  contains pat s = false -> sub_del pat 0 s = s.
Proof.
  induction s as [|c s IH]; [reflexivity|].
  cbn [contains]. intros H. apply orb_false_iff in H. destruct H as [H1 H2].
  rewrite (sub_del_keep _ _ _ H1), (IH H2). reflexivity.
Qed.

Lemma fence_removed_bounded (n : nat) (s : string) :
  String.length s <= n -> contains "```" (sub_del "```" 0 s) = false.
Proof.
  revert s; induction n as [|n IH]; intros s Hn.
  - destruct s; [reflexivity | cbn in Hn; lia].
  - destruct s as [|c s]; [reflexivity|]. cbn [String.length] in Hn.
    destruct (startswith (String c s) "```") eqn:Hm.
    + destruct (sub_del_match _ _ _ Hm) as [k ->]. apply IH.
      pose proof (length_drop_le k s). lia.
    + rewrite (sub_del_keep _ _ _ Hm). cbn [contains].
      rewrite (IH s) by lia. rewrite orb_false_r.
      cbn [startswith] in Hm |- *.
      destruct (Ascii.eqb "`" c); [|reflexivity]. cbn [andb] in Hm |- *.
      destruct s as [|c1 s]; [reflexivity|].
      destruct (startswith (String c1 s) "```") eqn:Hm1.
      { cbn [startswith] in Hm, Hm1.
        destruct (Ascii.eqb "`" c1); [|discriminate Hm1].
        cbn [andb] in Hm, Hm1. destruct s as [|c2 s]; [discriminate Hm1|].
        destruct (Ascii.eqb "`" c2); [discriminate Hm | discriminate Hm1]. }
      rewrite (sub_del_keep _ _ _ Hm1). cbn [startswith] in Hm |- *.
      destruct (Ascii.eqb "`" c1); [|reflexivity]. cbn [andb] in Hm |- *.
      destruct s as [|c2 s]; [reflexivity|].
      destruct (Ascii.eqb "`" c2) eqn:E2; [discriminate Hm|].
      assert (Hm2 : startswith (String c2 s) "```" = false)
        by (cbn [startswith]; now rewrite E2).
      rewrite (sub_del_keep _ _ _ Hm2). cbn [startswith]. now rewrite E2.
Qed.

Lemma fence_removed (s : string) : contains "```" (re_sub_fence "```" s) = false.
Proof. apply (fence_removed_bounded (String.length s)). lia. Qed.

(** *** Lines and what they hold *)

Lemma split_lines_nonempty (s : string) : split_lines s <> [].
Proof.
  destruct s as [|c s]; cbn [split_lines]; [discriminate|].
  destruct (Ascii.eqb c nl_char); [discriminate|].
  destruct (split_lines s); discriminate.
Qed.

Lemma join_cons (x y : string) (ls : list string) :
  join nl (x :: y :: ls) = x ++ nl ++ join nl (y :: ls).
Proof. reflexivity. Qed.

(** Splitting at line feeds and joining with line feeds gives the text
    back. *)
Lemma join_split_lines (s : string) : join nl (split_lines s) = s.
Proof.
  induction s as [|c s IH]; [reflexivity|]. cbn [split_lines].
  destruct (Ascii.eqb c nl_char) eqn:E.
  - apply Ascii.eqb_eq in E. subst c.
    destruct (split_lines s) as [|l ls] eqn:Hs;
      [now apply split_lines_nonempty in Hs|].
    rewrite join_cons, IH. reflexivity.
  - destruct (split_lines s) as [|l ls] eqn:Hs;
      [now apply split_lines_nonempty in Hs|].
    destruct ls as [|l' ls].
    + cbn in IH |- *. now rewrite IH.
    + rewrite join_cons. rewrite join_cons in IH. cbn [append]. now rewrite IH.
Qed.

Lemma startswith_app_nl (p x b : string) :
  contains nl p = false ->
  startswith (x ++ nl ++ b) p = startswith x p.
Proof.
  revert x; induction p as [|d p IH]; intros x Hp; [reflexivity|].
  cbn [contains startswith nl] in Hp. apply orb_false_iff in Hp.
  destruct Hp as [Hd Hp]. rewrite andb_true_r in Hd.
  destruct x as [|e x].
  - change ("" ++ nl ++ b) with (String nl_char b). cbn [startswith].
    now rewrite Ascii.eqb_sym, Hd.
  - change (String e x ++ nl ++ b) with (String e (x ++ nl ++ b)).
    cbn [startswith]. now rewrite (IH x Hp).
Qed.

Lemma contains_app_nl (p a b : string) :
  contains nl p = false ->
  contains p (a ++ nl ++ b) = contains p a || contains p b.
Proof.
  intros Hp. induction a as [|c a IH].
  - change (contains p ("" ++ nl ++ b)) with (contains p (String nl_char b)).
    cbn [contains]. rewrite orb_false_r.
    change (String nl_char b) with ("" ++ nl ++ b).
    now rewrite (startswith_app_nl p "" b Hp).
  - change (String c a ++ nl ++ b) with (String c (a ++ nl ++ b)).
    cbn [contains].
    change (String c (a ++ nl ++ b)) with (String c a ++ nl ++ b).
    rewrite (startswith_app_nl p (String c a) b Hp), IH.
    now rewrite orb_assoc.
Qed.

Lemma contains_join (p : string) (ls : list string) :
  contains nl p = false -> startswith "" p = false ->
  contains p (join nl ls) = existsb (contains p) ls.
Proof.
  intros Hp Hne. induction ls as [|x ls IH].
  - cbn. now rewrite Hne.
  - destruct ls as [|y ls].
    + cbn [existsb]. now rewrite orb_false_r.
    + rewrite join_cons, (contains_app_nl p x _ Hp), IH. reflexivity.
Qed.

(** *** No fence survives the clean-up *)

Lemma remove_prefix_keeps_out (sub s prefix : string) :
  contains sub s = false -> contains sub (remove_prefix s prefix) = false.
Proof.
  intros H. unfold remove_prefix.
  destruct (startswith (lower s) (lower prefix)); [|exact H].
  destruct (contains sub (strip (drop (String.length prefix) s))) eqn:E;
    [|reflexivity].
  apply contains_strip, contains_drop in E. congruence.
Qed.

Lemma remove_prefixes_keep_out (sub : string) (prefixes : list string)
    (s : string) :
  contains sub s = false ->
  contains sub (fold_left remove_prefix prefixes s) = false.
Proof.
  revert s; induction prefixes as [|p ps IH]; intros s H; [exact H|].
  cbn [fold_left]. apply IH. now apply remove_prefix_keeps_out.
Qed.

Lemma keep_sql_lines_keeps_out (sub s : string) :
  contains nl sub = false -> startswith "" sub = false ->
  contains sub s = false -> contains sub (keep_sql_lines s) = false.
Proof.
  intros Hnl Hne H. unfold keep_sql_lines.
  destruct (contains sub (strip _)) eqn:E; [|reflexivity].
  apply contains_strip in E.
  destruct (scan_lines_suffix (split_lines s))
    as (dropped & kept & Hl & Hs & _ & _).
  destruct (scan_lines (split_lines s)) as [|l ls] eqn:Hsl; [congruence|].
  rewrite (contains_join sub _ Hnl Hne), Hs in E.
  apply existsb_exists in E. destruct E as (x & Hx & Hc).
  apply in_map_iff in Hx. destruct Hx as (line & <- & Hline).
  apply contains_strip in Hc.
  rewrite <- (join_split_lines s), (contains_join sub _ Hnl Hne) in H.
  assert (existsb (contains sub) (split_lines s) = true); [|congruence].
  apply existsb_exists. exists line. split; [|exact Hc].
  rewrite Hl. apply in_or_app. now right.
Qed.

(** Whatever the model answers, the cleaned text holds no code fence. *)
Lemma cleanup_has_no_fence (content : string) :
  contains "```" (cleanup content) = false.
Proof.
  unfold cleanup, strip_fences_and_prefixes.
  apply keep_sql_lines_keeps_out; [reflexivity | reflexivity |].
  apply remove_prefixes_keep_out, fence_removed.
Qed.

(** *** Stripping twice is stripping once *)

Lemma rstrip_cons (c : ascii) (s : string) :
  rstrip (String c s)
  = match rstrip s with
    | EmptyString => if is_space c then EmptyString else String c EmptyString
    | r => String c r
    end.
Proof. reflexivity. Qed.

Lemma rstrip_idem (s : string) : rstrip (rstrip s) = rstrip s.
Proof.
  induction s as [|c s IH]; [reflexivity|]. rewrite rstrip_cons.
  destruct (rstrip s) as [|a r] eqn:E.
  - destruct (is_space c) eqn:Ec; [reflexivity|].
    rewrite rstrip_cons. cbn [rstrip]. now rewrite Ec.
  - rewrite rstrip_cons, IH. reflexivity.
Qed.

Lemma lstrip_head (s : string) :
  lstrip s = "" \/ exists c r, lstrip s = String c r /\ is_space c = false.
Proof.
  induction s as [|c s IH]; [now left|]. cbn [lstrip].
  destruct (is_space c) eqn:E; [exact IH|]. right. now exists c, s.
Qed.

Lemma rstrip_head (c : ascii) (r : string) :
  is_space c = false -> exists r', rstrip (String c r) = String c r'.
Proof.
  intros H. rewrite rstrip_cons, H. destruct (rstrip r); now eexists.
Qed.

Lemma strip_head (s : string) :
  strip s = "" \/ exists c r, strip s = String c r /\ is_space c = false.
Proof.
  unfold strip. destruct (lstrip_head s) as [-> | (c & r & -> & Hc)];
    [now left|].
  right. destruct (rstrip_head c r Hc) as [r' ->]. now exists c, r'.
Qed.

Lemma strip_idem (s : string) : strip (strip s) = strip s.
Proof.
  destruct (strip_head s) as [E | (c & r & E & Hc)].
  - now rewrite E.
  - unfold strip at 1. rewrite E. cbn [lstrip]. rewrite Hc, <- E.
    unfold strip. apply rstrip_idem.
Qed.

Lemma predefined_is_listed (question canned : string) :
  _get_predefined_query question = Some canned ->
  In canned [best_seller_monthly_sql; top_products_revenue_sql;
             monthly_sales_sql; low_stock_sql].
Proof.
  unfold _get_predefined_query.
  destruct (best_seller_monthly (lower question));
    [intros [= <-]; cbn; tauto|].
  destruct (top_products_revenue (lower question));
    [intros [= <-]; cbn; tauto|].
  destruct (monthly_sales (lower question)); [intros [= <-]; cbn; tauto|].
  destruct (low_stock (lower question)); [intros [= <-]; cbn; tauto|].
  discriminate.
Qed.

Section SynthesizedQuery.

Context {Value : Type}.
Variable env : Env Value.

(** X2.  The query [_generate_sql_query] returns, by the fast path or from the
    model, is not empty, has no blank at either end, starts with SELECT,
    WITH, CREATE, INSERT, UPDATE or DELETE in some mix of cases, and holds
    no code fence. *)
Theorem synthesized_query_invariant (question sql : string) (t t' : trace) :
  _generate_sql_query env question t = (Return sql, t') ->
  sql <> "" /\ strip sql = sql /\ starts_with_keyword_ci sql
  /\ contains "```" sql = false.
Proof.
  intros H. pose proof (generate_returns env _ _ _ _ H) as Hv.
  split; [intros ->; discriminate Hv|].
  split; [|split; [now apply starts_with_command_spec|]].
  - destruct (_get_predefined_query question) as [canned|] eqn:Hq.
    + rewrite (generate_fast_path env _ _ t Hq) in H. injection H as <- _.
      apply strip_idem.
    + rewrite (generate_from_model env _ t Hq) in H.
      destruct (llm_invoke env t (sql_prompt question)) as [content|e];
        [|discriminate].
      destruct (starts_with_command (cleanup content)); [|discriminate].
      injection H as <- _. unfold cleanup, keep_sql_lines. apply strip_idem.
  - destruct (_get_predefined_query question) as [canned|] eqn:Hq.
    + rewrite (generate_fast_path env _ _ t Hq) in H. injection H as <- _.
      apply predefined_is_listed in Hq. cbn [In] in Hq.
      destruct Hq as [<-|[<-|[<-|[<-|[]]]]]; vm_compute; reflexivity.
    + rewrite (generate_from_model env _ t Hq) in H.
      destruct (llm_invoke env t (sql_prompt question)) as [content|e];
        [|discriminate].
      destruct (starts_with_command (cleanup content)); [|discriminate].
      injection H as <- _. apply cleanup_has_no_fence.
Qed.

End SynthesizedQuery.

(** *** An answer that is already bare SQL *)

Lemma is_space_upper_char (c : ascii) : is_space (upper_char c) = is_space c.
Proof.
  destruct c as [[] [] [] [] [] [] [] []]; vm_compute; reflexivity.
Qed.

Lemma lower_app (a b : string) : lower (a ++ b) = lower a ++ lower b.
Proof.
  induction a as [|c a IH]; [reflexivity|].
  change (String (lower_char c) (lower (a ++ b))
          = String (lower_char c) (lower a ++ lower b)).
  now rewrite IH.
Qed.

Lemma sapp_inv_head (a b c : string) : a ++ b = a ++ c -> b = c.
Proof.
  induction a as [|x a IH]; [trivial|]. cbn. intros [= H]. now apply IH.
Qed.

Lemma lstrip_empty_iff_rstrip_empty (s : string) :
  lstrip s = "" <-> rstrip s = "".
Proof.
  induction s as [|c s IH]; [tauto|]. rewrite rstrip_cons. cbn [lstrip].
  destruct (is_space c).
  - rewrite IH. destruct (rstrip s); split; congruence.
  - destruct (rstrip s); split; discriminate.
Qed.

Lemma strip_empty_iff (s : string) : strip s = "" <-> rstrip s = "".
Proof.
  rewrite <- lstrip_empty_iff_rstrip_empty. unfold strip.
  destruct (lstrip_head s) as [E | (c & r & E & Hc)]; rewrite E.
  - tauto.
  - destruct (rstrip_head c r Hc) as [r' ->]. split; discriminate.
Qed.

Lemma strip_fixed (s : string) : strip s = s -> rstrip s = s /\ lstrip s = s.
Proof.
  intros H. split.
  - rewrite <- H at 1. unfold strip. rewrite rstrip_idem. exact H.
  - destruct (strip_head s) as [E | (c & r & E & Hc)]; rewrite H in E;
      subst s; [reflexivity|]. cbn [lstrip]. now rewrite Hc.
Qed.

Lemma rstrip_app_nonempty (a b : string) :
  rstrip b <> "" -> rstrip (a ++ b) = a ++ rstrip b.
Proof.
  intros H. induction a as [|c a IH]; [reflexivity|].
  cbn [append]. rewrite rstrip_cons, IH.
  destruct (a ++ rstrip b) as [|x y] eqn:E; [|reflexivity].
  destruct a; [cbn in E; contradiction | discriminate].
Qed.

Lemma rstrip_app_empty (a b : string) :
  rstrip b = "" -> rstrip (a ++ b) = rstrip a.
Proof.
  intros H. induction a as [|c a IH]; [exact H|].
  cbn [append]. now rewrite !rstrip_cons, IH.
Qed.

Lemma rstrip_length (s : string) : String.length (rstrip s) <= String.length s.
Proof.
  destruct (rstrip_prefix s) as [b H]. rewrite H at 2. rewrite slength_app. lia.
Qed.

(** A joined text ends without a blank exactly when its last line does. *)
Lemma rstrip_join_last (ls : list string) :
  ls <> [] ->
  (rstrip (join nl ls) = join nl ls /\ join nl ls <> "")
  <-> (rstrip (last ls "") = last ls "" /\ last ls "" <> "").
Proof.
  induction ls as [|x ls IH]; [congruence|]. intros _.
  destruct ls as [|y ls]; [reflexivity|].
  specialize (IH ltac:(discriminate)).
  rewrite join_cons. change (last (x :: y :: ls) "") with (last (y :: ls) "").
  set (J := join nl (y :: ls)) in *. rewrite <- IH. clear IH.
  destruct (rstrip J) as [|c r] eqn:E.
  - split.
    + intros [H _]. exfalso.
      assert (Hn : rstrip (nl ++ J) = "") by (cbn [append nl]; now rewrite rstrip_cons, E).
      rewrite (rstrip_app_empty x _ Hn) in H.
      pose proof (rstrip_length x) as Hl. rewrite H, !slength_app in Hl.
      cbn in Hl. lia.
    + intros [H Hne]. congruence.
  - assert (Hn : rstrip (nl ++ J) = nl ++ rstrip J).
    { apply rstrip_app_nonempty. rewrite E. discriminate. }
    assert (Hx : rstrip (x ++ nl ++ J) = x ++ nl ++ rstrip J).
    { rewrite rstrip_app_nonempty, Hn; [reflexivity|].
      rewrite Hn. discriminate. }
    rewrite Hx, E. split.
    + intros [H _]. apply sapp_inv_head, sapp_inv_head in H.
      split; [exact H | rewrite <- H; discriminate].
    + intros [H _]. rewrite H. split; [reflexivity|].
      destruct x; discriminate.
Qed.

Lemma last_map_strip (ls : list string) :
  last (map strip ls) "" = strip (last ls "").
Proof.
  induction ls as [|x ls IH]; [reflexivity|].
  destruct ls as [|y ls]; [reflexivity|]. exact IH.
Qed.

Lemma not_space_not_nl (b : ascii) : is_space b = false -> Ascii.eqb b nl_char = false.
Proof.
  intros H. destruct (Ascii.eqb b nl_char) eqn:E; [|reflexivity].
  apply Ascii.eqb_eq in E. subst b. discriminate H.
Qed.

(** The first line of a text that starts with a word starts with it. *)
Lemma first_line_startswith (kw s : string) :
  Forall (fun a => is_space a = false) (list_ascii_of_string kw) ->
  startswith (upper s) kw = true ->
  exists l0 rest, split_lines s = l0 :: rest /\ startswith (upper l0) kw = true.
Proof.
  revert s; induction kw as [|a kw IH]; intros s Hkw H.
  - destruct (split_lines s) as [|l0 rest] eqn:E;
      [now apply split_lines_nonempty in E | now exists l0, rest].
  - destruct s as [|b s]; [discriminate H|].
    rewrite upper_cons in H. cbn [startswith] in H.
    apply andb_true_iff in H. destruct H as [Ha Hs].
    apply Ascii.eqb_eq in Ha. cbn [list_ascii_of_string] in Hkw.
    inversion Hkw as [|? ? Hsp Hkw']; subst.
    rewrite is_space_upper_char in Hsp.
    destruct (IH s Hkw' Hs) as (l0 & rest & E & Hl).
    exists (String b l0), rest. cbn [split_lines].
    rewrite (not_space_not_nl b Hsp), E. split; [reflexivity|].
    rewrite upper_cons. cbn [startswith]. now rewrite Ascii.eqb_refl.
Qed.

Lemma rstrip_keeps_startswith (kw s : string) :
  Forall (fun a => is_space a = false) (list_ascii_of_string kw) ->
  startswith (upper s) kw = true ->
  startswith (upper (rstrip s)) kw = true.
Proof.
  revert s; induction kw as [|a kw IH]; intros s Hkw H; [reflexivity|].
  destruct s as [|b s]; [discriminate H|].
  rewrite upper_cons in H. cbn [startswith] in H.
  apply andb_true_iff in H. destruct H as [Ha Hs].
  cbn [list_ascii_of_string] in Hkw.
  inversion Hkw as [|? ? Hsp Hkw']; subst.
  apply Ascii.eqb_eq in Ha. subst a. rewrite is_space_upper_char in Hsp.
  specialize (IH s Hkw' Hs). rewrite rstrip_cons, Hsp.
  destruct (rstrip s) as [|c r]; rewrite upper_cons; cbn [startswith];
    now rewrite Ascii.eqb_refl, IH.
Qed.

Lemma lstrip_keeps_startswith (kw s : string) :
  Forall (fun a => is_space a = false) (list_ascii_of_string kw) ->
  kw <> "" ->
  startswith (upper s) kw = true -> lstrip s = s.
Proof.
  intros Hkw Hne H. destruct kw as [|a kw]; [congruence|].
  destruct s as [|b s]; [reflexivity|].
  rewrite upper_cons in H. cbn [startswith] in H.
  apply andb_true_iff in H. destruct H as [Ha _].
  apply Ascii.eqb_eq in Ha. subst a.
  cbn [list_ascii_of_string] in Hkw. inversion Hkw as [|? ? Hsp _]; subst.
  rewrite is_space_upper_char in Hsp. cbn [lstrip]. now rewrite Hsp.
Qed.

Lemma commands_are_solid (kw : string) :
  In kw sql_commands ->
  Forall (fun a => is_space a = false) (list_ascii_of_string kw) /\ kw <> "".
Proof.
  cbn [sql_commands In]. intros H.
  repeat (destruct H as [<- | H];
          [split; [repeat constructor | discriminate]|]).
  destruct H.
Qed.

(** The first line of a text that starts with an SQL command still starts
    with it once stripped. *)
Lemma first_line_command (s : string) :
  starts_with_command s = true ->
  exists l0 rest,
    split_lines s = l0 :: rest /\ starts_with_command (strip l0) = true
    /\ lstrip l0 = l0.
Proof.
  unfold starts_with_command at 1. intros H. apply existsb_exists in H.
  destruct H as (kw & Hin & H).
  destruct (commands_are_solid kw Hin) as [Hkw Hne].
  destruct (first_line_startswith kw s Hkw H) as (l0 & rest & E & Hl).
  exists l0, rest. split; [exact E|].
  pose proof (lstrip_keeps_startswith kw l0 Hkw Hne Hl) as Hls.
  split; [|exact Hls].
  unfold starts_with_command. apply existsb_exists. exists kw.
  split; [exact Hin|]. unfold strip. rewrite Hls.
  now apply rstrip_keeps_startswith.
Qed.

Lemma command_is_no_prefix (s p : string) :
  starts_with_command s = true -> In p prefixes_to_remove ->
  startswith (lower s) (lower p) = false.
Proof.
  intros H Hp. apply starts_with_command_spec in H.
  destruct H as (kw & pre & rest & Hin & -> & Hu).
  rewrite lower_app, <- (lower_upper pre), Hu.
  cbn [sql_commands In] in Hin. cbn [prefixes_to_remove In] in Hp.
  repeat (destruct Hin as [<- | Hin];
          [repeat (destruct Hp as [<- | Hp]; [reflexivity|]); destruct Hp|]).
  destruct Hin.
Qed.

Lemma remove_prefixes_fixed (prefixes : list string) (s : string) :
  (forall p, In p prefixes -> startswith (lower s) (lower p) = false) ->
  fold_left remove_prefix prefixes s = s.
Proof.
  induction prefixes as [|p ps IH]; intros H; [reflexivity|].
  cbn [fold_left]. unfold remove_prefix at 2.
  rewrite (H p (or_introl eq_refl)). apply IH.
  intros q Hq. apply H. now right.
Qed.

Lemma split_lines_single (s : string) :
  contains nl s = false -> split_lines s = [s].
Proof.
  induction s as [|c s IH]; [reflexivity|]. cbn [contains]. intros H.
  apply orb_false_iff in H. destruct H as [H1 H2].
  cbn [startswith nl] in H1. rewrite andb_true_r, Ascii.eqb_sym in H1.
  cbn [split_lines]. now rewrite H1, (IH H2).
Qed.

Lemma cleanup_bare_lines (raw : string) :
  strip raw = raw ->
  contains "```" raw = false ->
  starts_with_command raw = true ->
  cleanup raw = join nl (map strip (split_lines raw)).
Proof.
  intros Hstrip Hf Hv.
  assert (Hsf : strip_fences_and_prefixes raw = raw).
  { unfold strip_fences_and_prefixes, re_sub_fence. rewrite Hstrip.
    assert (Hf' : contains "```sql" raw = false).
    { destruct (contains "```sql" raw) eqn:E; [|reflexivity].
      apply contains_spec in E. destruct E as (a & b & E).
      assert (contains "```" raw = true); [|congruence].
      apply contains_spec. exists a, ("sql" ++ b). exact E. }
    rewrite (sub_del_without_occurrence _ _ Hf'),
      (sub_del_without_occurrence _ _ Hf).
    apply remove_prefixes_fixed. intros p Hp. now apply command_is_no_prefix. }
  assert (Hne : raw <> "") by (intros ->; discriminate Hv).
  assert (Hc : cleanup raw = join nl (map strip (split_lines raw))).
  { unfold cleanup. rewrite Hsf. unfold keep_sql_lines. cbn zeta.
    destruct (first_line_command raw Hv) as (l0 & rest & E & Hl0 & _).
    assert (Hscan : scan_lines (split_lines raw) = map strip (split_lines raw)).
    { rewrite scan_lines_quiet; rewrite E;
        cbn [quiet_preamble skip_to_first_keyword_line]; now rewrite Hl0. }
    rewrite Hscan.
    set (J := join nl (map strip (split_lines raw))).
    assert (HJ : match map strip (split_lines raw) with
                 | [] => raw
                 | _ :: _ => J
                 end = J) by now rewrite E.
    rewrite HJ.
    assert (Hl : lstrip J = J).
    { unfold J. rewrite E. cbn [map].
      destruct (strip_head l0) as [E0 | (c & r & E0 & Hsp)].
      - rewrite E0 in Hl0. discriminate Hl0.
      - rewrite E0. destruct (map strip rest); cbn; now rewrite Hsp. }
    unfold strip. rewrite Hl.
    destruct (strip_fixed raw Hstrip) as [Hr _].
    rewrite <- (join_split_lines raw) in Hr, Hne.
    destruct (proj1 (rstrip_join_last _ (split_lines_nonempty raw))
                (conj Hr Hne)) as [Hz Hzne].
    apply (rstrip_join_last (map strip (split_lines raw))).
    - rewrite E. discriminate.
    - rewrite last_map_strip. split.
      + unfold strip. apply rstrip_idem.
      + intros Hs. apply (proj1 (strip_empty_iff _)) in Hs. congruence. }
  exact Hc.
Qed.

(** *** Cleaning an accepted query again *)

Lemma split_lines_no_nl (s : string) :
  Forall (fun l => contains nl l = false) (split_lines s).
Proof.
  induction s as [|c s IH]; [repeat constructor|]. cbn [split_lines].
  destruct (Ascii.eqb c nl_char) eqn:E; [now constructor|].
  destruct (split_lines s) as [|l ls]; inversion IH; subst;
    constructor; try assumption; try constructor;
    cbn [contains startswith nl]; rewrite Ascii.eqb_sym, E; try assumption;
    reflexivity.
Qed.

Lemma split_lines_app_nl (x s : string) :
  contains nl x = false -> split_lines (x ++ nl ++ s) = x :: split_lines s.
Proof.
  induction x as [|c x IH]; intros H.
  - change ("" ++ nl ++ s) with (String nl_char s). cbn [split_lines].
    now rewrite Ascii.eqb_refl.
  - cbn [contains] in H. apply orb_false_iff in H. destruct H as [H1 H2].
    cbn [startswith nl] in H1. rewrite andb_true_r, Ascii.eqb_sym in H1.
    change (String c x ++ nl ++ s) with (String c (x ++ nl ++ s)).
    cbn [split_lines]. now rewrite H1, (IH H2).
Qed.

(** Joining lines that hold no line feed and splitting again gives the
    lines back. *)
Lemma split_lines_join (ls : list string) :
  ls <> [] -> Forall (fun l => contains nl l = false) ls ->
  split_lines (join nl ls) = ls.
Proof.
  induction ls as [|x ls IH]; [congruence|]. intros _ H.
  inversion H as [|? ? Hx Hls]; subst. destruct ls as [|y ls].
  - now apply split_lines_single.
  - rewrite join_cons, (split_lines_app_nl _ _ Hx), IH;
      [reflexivity | discriminate | exact Hls].
Qed.

(** Stripping the right end of joined lines leaves some first lines,
    joined. *)
Lemma rstrip_join_prefix (ls : list string) :
  Forall (fun l => rstrip l = l) ls ->
  exists ls1 ls2, ls = (ls1 ++ ls2)%list /\ rstrip (join nl ls) = join nl ls1.
Proof.
  induction ls as [|x ls IH]; intros H; [now exists [], []|].
  inversion H as [|? ? Hx Hls]; subst.
  destruct (IH Hls) as (a & b & Hab & Hr).
  destruct ls as [|y ls]; [exists [x], []; split; [reflexivity | exact Hx]|].
  rewrite join_cons. set (J := join nl (y :: ls)) in *.
  destruct (rstrip J) as [|c r] eqn:E.
  - exists [x], (y :: ls). split; [reflexivity|].
    assert (Hn : rstrip (nl ++ J) = "")
      by (cbn [append nl]; now rewrite rstrip_cons, E).
    rewrite (rstrip_app_empty x _ Hn). exact Hx.
  - assert (Hn : rstrip (nl ++ J) = nl ++ rstrip J).
    { apply rstrip_app_nonempty. rewrite E. discriminate. }
    exists (x :: a), b. split; [now rewrite Hab|].
    rewrite rstrip_app_nonempty, Hn, E, Hr; [|rewrite Hn; discriminate].
    destruct a as [|a0 a]; [discriminate Hr | reflexivity].
Qed.

Lemma rstrip_keeps_command (s : string) :
  starts_with_command (rstrip s) = true -> starts_with_command s = true.
Proof.
  intros H. apply starts_with_command_spec in H.
  destruct H as (kw & pre & rest & Hin & E & Hu).
  apply starts_with_command_spec. destruct (rstrip_prefix s) as [b Hb].
  exists kw, pre, (rest ++ b). split; [exact Hin|]. split; [|exact Hu].
  now rewrite Hb, E, sapp_assoc.
Qed.

(** A text that starts with an SQL command once its leading blanks are
    gone has a line that does. *)
Lemma lstrip_command_has_line (s : string) :
  starts_with_command (lstrip s) = true ->
  exists line, In line (split_lines s) /\ starts_with_command (strip line) = true.
Proof.
  induction s as [|c s IH]; [discriminate|]. cbn [lstrip].
  destruct (is_space c) eqn:Hc.
  - intros H. destruct (IH H) as (line & Hin & Hl). cbn [split_lines].
    destruct (Ascii.eqb c nl_char); [exists line; split; [now right | exact Hl]|].
    destruct (split_lines s) as [|l ls]; [destruct Hin|].
    destruct Hin as [<- | Hin].
    + exists (String c l). split; [now left|].
      unfold strip. cbn [lstrip]. now rewrite Hc.
    + exists line. split; [now right | exact Hl].
  - intros H. destruct (first_line_command _ H) as (l0 & rest & E & Hl & _).
    exists l0. split; [rewrite E; now left | exact Hl].
Qed.

(** An accepted text was found by the scan. *)
Lemma accepted_was_scanned (s : string) :
  starts_with_command (keep_sql_lines s) = true ->
  scan_lines (split_lines s) <> [].
Proof.
  unfold keep_sql_lines. cbn zeta. intros H Hs. rewrite Hs in H.
  unfold strip in H. apply rstrip_keeps_command, lstrip_command_has_line in H.
  destruct H as (line & Hin & Hl).
  destruct (scan_lines_suffix (split_lines s))
    as (dropped & kept & E & Hk & Hd & _).
  rewrite Hs in Hk. destruct kept; [|discriminate Hk].
  rewrite app_nil_r in E. rewrite <- E in Hd.
  rewrite Forall_forall in Hd. destruct (Hd line Hin) as [H1 H2].
  destruct (starts_with_command_cases _ Hl) as [H3 | H3]; [congruence|].
  unfold mentions_keyword in H2. congruence.
Qed.

Lemma map_strip_fixed (ls : list string) :
  Forall (fun l => strip l = l) ls -> map strip ls = ls.
Proof.
  induction 1 as [|l ls Hl _ IH]; [reflexivity|]. cbn. now rewrite Hl, IH.
Qed.

(** X4.  Every line of a query accepted from the model has no blank at either
    end (all indentation is gone), and cleaning such a query once more
    gives the same query. *)
Theorem accepted_cleanup_is_stable (raw : string) :
  starts_with_command (cleanup raw) = true ->
  Forall (fun l => strip l = l) (split_lines (cleanup raw))
  /\ cleanup (cleanup raw) = cleanup raw.
Proof.
  intros Hv.
  assert (Hlines : Forall (fun l => strip l = l) (split_lines (cleanup raw))).
  { unfold cleanup in Hv |- *. set (s := strip_fences_and_prefixes raw) in *.
    pose proof (accepted_was_scanned s Hv) as Hne.
    unfold keep_sql_lines in Hv |- *. cbn zeta in Hv |- *.
    destruct (scan_lines_suffix (split_lines s))
      as (dropped & kept & E & Hk & _ & Hfirst).
    rewrite Hk in Hne, Hv |- *.
    destruct kept as [|k0 kept]; [cbn in Hne; congruence|]. clear Hne.
    set (ls := map strip (k0 :: kept)) in *.
    assert (Hnl : Forall (fun l => contains nl l = false) ls).
    { apply Forall_forall. intros l Hl. apply in_map_iff in Hl.
      destruct Hl as (k & <- & Hkin).
      destruct (contains nl (strip k)) eqn:Ec; [|reflexivity].
      apply contains_strip in Ec.
      pose proof (split_lines_no_nl s) as Hall. rewrite Forall_forall in Hall.
      rewrite (Hall k) in Ec; [discriminate Ec|]. rewrite E. apply in_or_app. now right. }
    assert (Hst : Forall (fun l => strip l = l) ls).
    { apply Forall_forall. intros l Hl. apply in_map_iff in Hl.
      destruct Hl as (k & <- & _). apply strip_idem. }
    assert (HJ : match ls with [] => s | _ :: _ => join nl ls end = join nl ls)
      by reflexivity.
    rewrite HJ in Hv |- *.
    assert (Hl : lstrip (join nl ls) = join nl ls).
    { unfold ls. cbn [map].
      destruct (strip_head k0) as [E0 | (c & r & E0 & Hsp)].
      - exfalso. unfold mentions_keyword in Hfirst. rewrite E0 in Hfirst.
        destruct Hfirst as [H|H]; discriminate H.
      - rewrite E0. destruct (map strip kept); cbn; now rewrite Hsp. }
    unfold strip in Hv |- *. rewrite Hl in Hv |- *.
    destruct (rstrip_join_prefix ls) as (ls1 & ls2 & Els & Hr).
    { apply Forall_forall. intros l Hin. rewrite Forall_forall in Hst.
      now apply strip_fixed, Hst. }
    rewrite Hr in Hv |- *. rewrite Els in Hnl, Hst.
    apply Forall_app in Hnl, Hst. destruct Hnl as [Hnl _], Hst as [Hst _].
    rewrite split_lines_join; [exact Hst | | exact Hnl].
    intros ->. discriminate Hv. }
  split; [exact Hlines|].
  rewrite (cleanup_bare_lines (cleanup raw)).
  - rewrite (map_strip_fixed _ Hlines). apply join_split_lines.
  - unfold cleanup, keep_sql_lines. apply strip_idem.
  - apply cleanup_has_no_fence.
  - exact Hv.
Qed.

(** ** The dashboard *)

Import Dashboard.



Lemma ui_closes_app (a b : ui_trace) :
  ui_closes (a ++ b)%list = ui_closes a + ui_closes b.
Proof. unfold ui_closes. now rewrite filter_app, length_app. Qed.

Section DashboardFacts.

Context {Value : Type} {rendering : Rendering Value}.

Lemma first_cell_missing (df : frame) (col : string) :
  ~ In col (frame_columns df) ->
  first_cell df col = Raise (mk_exn OtherException (repr_key col)).
Proof.
  intros H. unfold first_cell.
  assert (E : filter (String.eqb col) (frame_columns df) = []).
  { induction (frame_columns df) as [|c cols IH]; [reflexivity|].
    cbn [filter]. destruct (String.eqb col c) eqn:Ec.
    - apply String.eqb_eq in Ec. subst. exfalso. apply H. now left.
    - apply IH. intros Hin. apply H. now right. }
  now rewrite E.
Qed.

(** X14.  [get_database_stats] asks the frame of its last query for the column
    [low_stock], while the query names its only column [count].  With a
    store that names columns as the queries do, the function never
    returns statistics: every path ends in the handler, which reports an
    error and returns the empty dict, and no path closes the connection. *)
Theorem database_stats_are_never_returned (store : @Store Value)
    (t : ui_trace) :
  (forall t0 df, read_sql store t0 low_stock_count_sql = Return df ->
                 ~ In "low_stock" (frame_columns df)) ->
  exists t' message,
    get_database_stats store t = (Return [], (t' ++ [UiError message])%list)
    /\ (exists evs, t' = (t ++ evs)%list)
    /\ ui_closes t' = ui_closes t
    /\ exists detail, message = "Error getting database stats: " ++ detail.
Proof.
  intros Hcol.
  cbv [get_database_stats u_try u_bind read_first ui_connect ui_read_sql
         ui_close st_error u_ret].
  destruct (connect store t) as [[]|e].
  2: { eexists t, _. split; [reflexivity|]. split; [exists []; now rewrite app_nil_r|].
       split; [reflexivity | now eexists]. }
  repeat
    match goal with
    | |- context [read_sql store ?tr low_stock_count_sql] =>
        let H := fresh "H" in
        destruct (read_sql store tr low_stock_count_sql) as [?df|?e] eqn:H;
        [rewrite (first_cell_missing _ _ (Hcol _ _ H))|]
    | |- context [read_sql store ?tr ?q] =>
        destruct (read_sql store tr q) as [?df|?e]
    | |- context [first_cell ?df ?c] =>
        destruct (first_cell df c) as [?v|?e]
    end;
    (eexists _, _; split; [reflexivity|];
     split; [rewrite <- ?app_assoc; eexists; reflexivity|];
     split; [rewrite ?ui_closes_app; cbn; lia | now eexists]).
Qed.




End DashboardFacts.

(** ** The line scan and the bare answer, in full *)

(** X5.  Whatever the lines are, the scan drops a run of leading lines and
    keeps every line after it, each one stripped: the dropped lines are
    those ahead of the first line that starts with SELECT or holds WITH,
    CREATE, INSERT, UPDATE or DELETE somewhere, and that line is the first
    one kept.  Where no dropped line would hold one of the five words,
    this is the scan of the specification. *)
Theorem scan_lines_keeps_a_suffix (lines : list string) :
  (exists dropped kept,
     lines = (dropped ++ kept)%list
     /\ scan_lines lines = map strip kept
     /\ Forall (fun line =>
                  startswith (upper (strip line)) "SELECT" = false
                  /\ mentions_keyword line = false) dropped
     /\ match kept with
        | [] => True
        | line :: _ =>
            startswith (upper (strip line)) "SELECT" = true
            \/ mentions_keyword line = true
        end)
  /\ (quiet_preamble lines = true ->
      scan_lines lines = skip_to_first_keyword_line lines).
Proof.
  split; [apply scan_lines_suffix | apply scan_lines_quiet].
Qed.

(** X3.  When the model answers as it is told to, with SQL and nothing
    else (no fence, no blank at either end, an SQL command first), the
    clean-up changes nothing but the blanks at the ends of each line; an
    answer of one line is returned as it is. *)
Theorem cleanup_of_bare_sql (raw : string) :
  strip raw = raw ->
  contains "```" raw = false ->
  starts_with_command raw = true ->
  cleanup raw = join nl (map strip (split_lines raw))
  /\ (contains nl raw = false -> cleanup raw = raw).
Proof.
  intros Hstrip Hf Hv.
  pose proof (cleanup_bare_lines raw Hstrip Hf Hv) as Hc.
  split; [exact Hc|]. intros Hnl.
  rewrite Hc, (split_lines_single raw Hnl). cbn. exact Hstrip.
Qed.

(** ** The further properties at concrete worlds *)

Import MoreScenarios.

(** X2 at the fenced answer of the scenario. *)
Lemma synthesized_query_invariant_witness :
  _generate_sql_query (answering fenced_output)
    "How many orders are pending?" []
  = (Return "SELECT 1", [EvInvoke (sql_prompt "How many orders are pending?")])
  /\ strip "SELECT 1" = "SELECT 1"
  /\ contains "```" "SELECT 1" = false.
Proof.
  assert (H : _generate_sql_query (answering fenced_output)
                "How many orders are pending?" []
              = (Return "SELECT 1",
                 [EvInvoke (sql_prompt "How many orders are pending?")]))
    by (vm_compute; reflexivity).
  split; [exact H|].
  destruct (synthesized_query_invariant _ _ _ _ _ H) as (_ & H1 & _ & H2).
  split; assumption.
Defined.

(** X3 at an answer of two lines, the second one indented. *)
Lemma cleanup_of_bare_sql_witness :
  strip indented_output = indented_output
  /\ contains "```" indented_output = false
  /\ starts_with_command indented_output = true
  /\ cleanup indented_output = join nl ["SELECT a"; "FROM t"].
Proof.
  split; [vm_compute; reflexivity|]. split; [vm_compute; reflexivity|].
  split; [vm_compute; reflexivity|].
  refine (proj1 (cleanup_of_bare_sql indented_output _ _ _));
    vm_compute; reflexivity.
Defined.

(** X4 at the fenced answer of the scenario. *)
Lemma accepted_cleanup_is_stable_witness :
  starts_with_command (cleanup fenced_output) = true
  /\ cleanup (cleanup fenced_output) = cleanup fenced_output.
Proof.
  split; [vm_compute; reflexivity|].
  refine (proj2 (accepted_cleanup_is_stable fenced_output _)).
  vm_compute; reflexivity.
Defined.

(** X6 at a store that answers with one row. *)
Lemma execute_query_rows_round_trip_witness :
  db_connect (answering "SELECT 1") [] = Return tt
  /\ db_execute (answering "SELECT 1") [EvConnect] "SELECT 1"
     = Return (Some ["n"], [fun _ => "1"])
  /\ exists rows,
       fst (_execute_query (answering "SELECT 1") "SELECT 1" [])
       = Return (rows, ["n"])
       /\ List.length rows = 1.
Proof.
  split; [reflexivity|]. split; [reflexivity|].
  destruct (execute_query_rows_round_trip (answering "SELECT 1") "SELECT 1" []
              (Some ["n"]) [fun _ => "1"] eq_refl eq_refl)
    as (rows & H1 & H2 & _).
  exists rows. split; assumption.
Defined.

(** X7 at a row that has column a and lacks column b. *)
Lemma narrate_fails_exactly_on_missing_column_witness :
  ~ well_formed (rendered_rows [[("a", "1")]]) ["a"; "b"]
  /\ exists row col,
       In row (rendered_rows [[("a", "1")]]) /\ In col ["a"; "b"]
       /\ dict_get row col = None
       /\ first_deficient_row (rendered_rows [[("a", "1")]]) ["a"; "b"] row
       /\ first_missing_column row ["a"; "b"] col
       /\ _interpret_results model_down "Any question" [[("a", "1")]]
            ["a"; "b"] []
          = (Raise (mk_exn OtherException (repr_key col)), []).
Proof.
  assert (H : ~ well_formed (rendered_rows [[("a", "1")]]) ["a"; "b"]).
  { intros H. inversion H as [|? ? Hrow _]; subst.
    inversion Hrow as [|? ? _ Hb]; subst.
    inversion Hb as [|? ? Hnone _]; subst. now apply Hnone. }
  split; [exact H|].
  exact (proj2 (narrate_fails_exactly_on_missing_column model_down
                  "Any question" [[("a", "1")]] ["a"; "b"] []) H).
Defined.


(** X11 at a model and a store that answer. *)
Lemma success_record_is_consistent_witness :
  (exists t',
     answer_question (answering "SELECT 1") "How many orders are pending?" []
     = (Return (success_record "How many orders are pending?" "SELECT 1"
                  [[("n", "1")]] ["n"] "SELECT 1"), t'))
  /\ exists sql,
       starts_with_keyword_ci sql
       /\ sql_query (success_record "How many orders are pending?" "SELECT 1"
                       [[("n", "1")]] ["n"] "SELECT 1") = Some sql.
Proof.
  assert (H : exists t',
            answer_question (answering "SELECT 1")
              "How many orders are pending?" []
            = (Return (success_record "How many orders are pending?"
                         "SELECT 1" [[("n", "1")]] ["n"] "SELECT 1"), t')).
  { eexists. vm_compute. reflexivity. }
  split; [exact H|]. destruct H as [t' H].
  destruct (success_record_is_consistent (answering "SELECT 1") _ _ _ _ H
              eq_refl) as (sql & evs & _ & H1 & H2 & _).
  now exists sql.
Defined.



(** X14 at a store that names result columns as the queries do. *)
Lemma database_stats_are_never_returned_witness :
  (forall t0 df,
     Dashboard.read_sql counting_store t0 Dashboard.low_stock_count_sql
     = Return df ->
     ~ In "low_stock" (Dashboard.frame_columns df))
  /\ fst (Dashboard.get_database_stats counting_store []) = Return [].
Proof.
  assert (H : forall t0 df,
            Dashboard.read_sql counting_store t0 Dashboard.low_stock_count_sql
            = Return df ->
            ~ In "low_stock" (Dashboard.frame_columns df)).
  { intros t0 df [= <-]. cbn. intros [H|[]]. discriminate H. }
  split; [exact H|].
  destruct (database_stats_are_never_returned counting_store [] H)
    as (t' & message & Hg & _).
  now rewrite Hg.
Defined.


(** ** A fenced answer *)

Lemma sub_del_before_nl (pat a rest : string) :
  contains nl pat = false -> contains pat a = false ->
  sub_del pat 0 (a ++ nl ++ rest) = a ++ sub_del pat 0 (nl ++ rest).
Proof.
  intros Hp. induction a as [|c a IH]; intros Ha; [reflexivity|].
  cbn [contains] in Ha. apply orb_false_iff in Ha. destruct Ha as [H1 H2].
  change (String c a ++ nl ++ rest) with (String c (a ++ nl ++ rest)).
  rewrite sub_del_keep.
  - rewrite (IH H2). reflexivity.
  - change (String c (a ++ nl ++ rest)) with (String c a ++ nl ++ rest).
    now rewrite (startswith_app_nl _ _ _ Hp).
Qed.

Lemma contains_longer_fence (s : string) :
  contains "```" s = false -> contains "```sql" s = false.
Proof.
  intros H. destruct (contains "```sql" s) eqn:E; [|reflexivity].
  apply contains_spec in E. destruct E as (a & b & E).
  assert (contains "```" s = true); [|congruence].
  apply contains_spec. exists a, ("sql" ++ b). exact E.
Qed.

Lemma split_lines_app_last (s : string) :
  split_lines (s ++ nl) = (split_lines s ++ [""])%list.
Proof.
  induction s as [|c s IH]; [reflexivity|].
  change (String c s ++ nl) with (String c (s ++ nl)). cbn [split_lines].
  rewrite IH. destruct (Ascii.eqb c nl_char); [reflexivity|].
  destruct (split_lines s) as [|l ls] eqn:E;
    [now apply split_lines_nonempty in E | reflexivity].
Qed.

Lemma join_app_last (ls : list string) :
  ls <> [] -> join nl (ls ++ [""]) = join nl ls ++ nl.
Proof.
  induction ls as [|x ls IH]; [congruence|]. intros _.
  destruct ls as [|y ls].
  - reflexivity.
  - change ((x :: y :: ls) ++ [""])%list with (x :: y :: (ls ++ [""]))%list.
    rewrite !join_cons.
    change (y :: (ls ++ [""]))%list with ((y :: ls) ++ [""])%list.
    rewrite IH by discriminate. now rewrite !sapp_assoc.
Qed.

Lemma command_extends (s rest : string) :
  starts_with_command s = true -> starts_with_command (s ++ rest) = true.
Proof.
  intros H. apply starts_with_command_spec in H.
  destruct H as (kw & pre & r & Hin & -> & Hu).
  apply starts_with_command_spec. exists kw, pre, (r ++ rest).
  split; [exact Hin|]. split; [apply sapp_assoc | exact Hu].
Qed.

(** Bare SQL followed by one line feed cleans to what the bare SQL cleans
    to. *)
Lemma keep_sql_lines_last_nl (body : string) :
  strip body = body ->
  contains "```" body = false ->
  starts_with_command body = true ->
  keep_sql_lines (body ++ nl) = cleanup body.
Proof.
  intros Hstrip Hf Hv.
  pose proof (cleanup_bare_lines body Hstrip Hf Hv) as Hc.
  set (J := join nl (map strip (split_lines body))) in *.
  assert (HJ : strip J = J).
  { rewrite <- Hc. unfold cleanup, keep_sql_lines. apply strip_idem. }
  assert (HJne : J <> "").
  { rewrite <- Hc. intros E.
    assert (Hcv : starts_with_command (cleanup body) = true).
    { rewrite Hc. unfold J.
      destruct (first_line_command body Hv) as (l0 & rest & E0 & Hl0 & _).
      rewrite E0. cbn [map]. destruct (map strip rest).
      - exact Hl0.
      - rewrite join_cons. now apply command_extends. }
    rewrite E in Hcv. discriminate Hcv. }
  rewrite Hc. unfold keep_sql_lines. cbn zeta.
  destruct (first_line_command body Hv) as (l0 & rest & E0 & Hl0 & _).
  assert (Hscan : scan_lines (split_lines (body ++ nl))
                  = (map strip (split_lines body) ++ [""])%list).
  { rewrite split_lines_app_last, scan_lines_quiet; rewrite E0;
      change ((l0 :: rest) ++ [""])%list with (l0 :: (rest ++ [""]))%list;
      cbn [quiet_preamble skip_to_first_keyword_line]; rewrite Hl0;
      [|reflexivity].
    change (l0 :: rest ++ [""])%list with ((l0 :: rest) ++ [""])%list.
    now rewrite map_app. }
  rewrite Hscan.
  assert (Hm : match (map strip (split_lines body) ++ [""])%list with
               | [] => body ++ nl
               | _ :: _ => join nl (map strip (split_lines body) ++ [""])
               end = J ++ nl).
  { rewrite join_app_last by (rewrite E0; discriminate).
    unfold J. rewrite E0. reflexivity. }
  rewrite Hm. destruct (strip_fixed J HJ) as [Hr Hl].
  unfold strip.
  assert (Hl' : lstrip (J ++ nl) = J ++ nl).
  { destruct J as [|c r]; [congruence|]. cbn [lstrip append] in Hl |- *.
    destruct (is_space c); [|reflexivity].
    exfalso. pose proof (lstrip_suffix r) as [a Ha].
    assert (Hlen : String.length (lstrip r) <= String.length r).
    { rewrite Ha at 2. rewrite slength_app. lia. }
    rewrite Hl in Hlen. cbn in Hlen. lia. }
  rewrite Hl', (rstrip_app_empty J nl eq_refl). exact Hr.
Qed.

Lemma strip_fenced (opening body : string) :
  lstrip (opening ++ nl ++ body ++ nl ++ "```")
  = opening ++ nl ++ body ++ nl ++ "```" ->
  strip (opening ++ nl ++ body ++ nl ++ "```")
  = opening ++ nl ++ body ++ nl ++ "```".
Proof.
  intros Hl. unfold strip. rewrite Hl.
  assert (E : opening ++ nl ++ body ++ nl ++ "```"
              = (opening ++ nl ++ body ++ nl) ++ "```")
    by now rewrite !sapp_assoc.
  rewrite E. apply rstrip_app_nonempty. discriminate.
Qed.

Lemma fences_of_fenced_sql (body : string) :
  contains "```" body = false ->
  re_sub_fence "```"
    (re_sub_fence "```sql" ("```sql" ++ nl ++ body ++ nl ++ "```"))
  = body ++ nl.
Proof.
  intros Hf. unfold re_sub_fence.
  change (sub_del "```sql" 0 ("```sql" ++ nl ++ body ++ nl ++ "```"))
    with (sub_del "```sql" 0 (body ++ nl ++ "```")).
  rewrite sub_del_before_nl;
    [|reflexivity | now apply contains_longer_fence].
  change (sub_del "```sql" 0 (nl ++ "```")) with (nl ++ "```").
  rewrite sub_del_before_nl; [reflexivity | reflexivity | exact Hf].
Qed.

Lemma fences_of_fenced_plain (body : string) :
  contains "```" body = false ->
  re_sub_fence "```"
    (re_sub_fence "```sql" ("```" ++ nl ++ body ++ nl ++ "```"))
  = body ++ nl.
Proof.
  intros Hf. unfold re_sub_fence.
  rewrite (sub_del_without_occurrence "```sql").
  - change (sub_del "```" 0 ("```" ++ nl ++ body ++ nl ++ "```"))
      with (sub_del "```" 0 (body ++ nl ++ "```")).
    rewrite sub_del_before_nl; [reflexivity | reflexivity | exact Hf].
  - rewrite !(contains_app_nl "```sql") by reflexivity.
    now rewrite (contains_longer_fence _ Hf).
Qed.

(** X17.  A fenced answer is unwrapped: when the model puts bare SQL (no
    fence inside, no blank at either end, an SQL command first) between an
    opening fence, with or without the word sql, and a closing fence, each
    on a line of its own, the clean-up gives what it gives for the bare
    SQL. *)
Theorem fenced_bare_sql_is_unwrapped (body : string) :
  strip body = body ->
  contains "```" body = false ->
  starts_with_command body = true ->
  cleanup ("```sql" ++ nl ++ body ++ nl ++ "```") = cleanup body
  /\ cleanup ("```" ++ nl ++ body ++ nl ++ "```") = cleanup body.
Proof.
  intros Hstrip Hf Hv.
  assert (Hp : fold_left remove_prefix prefixes_to_remove (body ++ nl)
               = body ++ nl).
  { apply remove_prefixes_fixed. intros p Hp.
    apply command_is_no_prefix; [now apply command_extends | exact Hp]. }
  split; unfold cleanup at 1, strip_fences_and_prefixes.
  - rewrite (strip_fenced "```sql" body eq_refl), (fences_of_fenced_sql _ Hf), Hp.
    now apply keep_sql_lines_last_nl.
  - rewrite (strip_fenced "```" body eq_refl), (fences_of_fenced_plain _ Hf), Hp.
    now apply keep_sql_lines_last_nl.
Qed.

(** X17 at the answer of the scenario. *)
Lemma fenced_bare_sql_is_unwrapped_witness :
  strip "SELECT 1" = "SELECT 1"
  /\ contains "```" "SELECT 1" = false
  /\ starts_with_command "SELECT 1" = true
  /\ cleanup ("```sql" ++ nl ++ "SELECT 1" ++ nl ++ "```") = cleanup "SELECT 1".
Proof.
  split; [reflexivity|]. split; [reflexivity|]. split; [reflexivity|].
  refine (proj1 (fenced_bare_sql_is_unwrapped "SELECT 1" _ _ _)); reflexivity.
Defined.

(** ** What the narrator shows of a long result set *)

Section LongResults.

Context {Value : Type} {rendering : Rendering Value}.
Variable env : Env Value.

(** X18.  Of a result set of more than ten rows the narrator uses the
    number of rows and the first five rows only, in its prompt and in its
    fallback text alike: two result sets of one length that agree on
    their first five rows get the same narrative and the same
    invocation. *)
Theorem narrative_uses_five_rows_of_many (question : string)
    (rows rows' : list (dict Value)) (cols : list string) (t : trace) :
  10 < List.length rows ->
  List.length rows' = List.length rows ->
  firstn 5 rows' = firstn 5 rows ->
  _interpret_results env question rows' cols t
  = _interpret_results env question rows cols t.
Proof.
  intros Hlen Hsame Hfirst.
  assert (H3 : firstn 3 rows' = firstn 3 rows).
  { pose proof (firstn_firstn rows 3 5) as A.
    pose proof (firstn_firstn rows' 3 5) as B.
    cbn [Nat.min] in A, B. now rewrite <- A, <- B, Hfirst. }
  assert (Hr : render_results rows' cols = render_results rows cols).
  { unfold render_results. rewrite Hsame, Hfirst.
    now rewrite (proj2 (Nat.leb_gt (List.length rows) 10) Hlen). }
  unfold _interpret_results, fallback_text.
  destruct rows as [|r rows]; [cbn in Hlen; lia|].
  destruct rows' as [|r' rows']; [discriminate Hsame|].
  now rewrite Hr, Hsame, H3.
Qed.

End LongResults.

(** X18 at two result sets of eleven rows that differ in their last
    row. *)
Lemma narrative_uses_five_rows_of_many_witness :
  10 < List.length (repeat [("n", "1")] 10 ++ [[("n", "2")]])%list
  /\ _interpret_results (answering "Eleven rows.") "How many?"
       (repeat [("n", "1")] 10 ++ [[("n", "3")]])%list ["n"] []
     = _interpret_results (answering "Eleven rows.") "How many?"
         (repeat [("n", "1")] 10 ++ [[("n", "2")]])%list ["n"] [].
Proof.
  split; [cbn; lia|].
  apply (narrative_uses_five_rows_of_many (answering "Eleven rows."));
    [cbn; lia | reflexivity | reflexivity].
Defined.

(** ** [answer_question] and the console *)

Section PrintingFacts.

Context {Value : Type} {rendering : Rendering Value}.
Variable env : Env Value.
Variable stdout : trace -> string -> outcome unit.

(** On a console that takes every text, [answer_question] with its
    [print] calls is [answer_question] without them. *)
Lemma printing_agrees_when_console_accepts (question : string) (t : trace) :
  (forall t0 text, stdout t0 text = Return tt) ->
  Printing.answer_question env stdout question t
  = answer_question env question t.
Proof.
  intros H.
  unfold Printing.answer_question, answer_question, try_except, bind,
    Printing.print.
  rewrite !H.
  destruct (_generate_sql_query env question t) as [[sql|e] t1];
    [|now rewrite H].
  rewrite !H.
  destruct (_execute_query env sql t1) as [[[rows cols]|e] t2];
    [|now rewrite H].
  rewrite !H.
  destruct (_interpret_results env question rows cols t2) as [[txt|e] t3];
    [reflexivity | now rewrite H].
Qed.

(** There the failure record of the specification is returned. *)
Lemma failure_record_when_console_accepts (question : string) (t t' : trace)
    (e : exn) :
  (forall t0 text, stdout t0 text = Return tt) ->
  pipeline_fails env question t e t' ->
  Printing.answer_question env stdout question t
  = (Return (failure_record question e), t')
  /\ success (failure_record (Value := Value) question e) = false
  /\ error (failure_record (Value := Value) question e) = Some (exn_str e)
  /\ exn_str e <> ""
  /\ analysis (failure_record (Value := Value) question e)
     = "Sorry, I couldn't process your question: " ++ exn_str e.
Proof.
  intros H Hf. rewrite (printing_agrees_when_console_accepts _ _ H).
  split.
  - destruct Hf as [Hf|(sql & t1 & H1 & H2)].
    + now apply answer_generate_fails.
    + now apply (answer_execute_fails env _ sql _ t1).
  - repeat split.
    destruct Hf as [Hf|(sql & t1 & H1 & H2)].
    + destruct (generate_raises env _ _ _ _ Hf) as [d ->]. discriminate.
    + destruct (execute_raises env _ _ _ _ H2) as [d [-> | ->]]; discriminate.
Qed.

(** When synthesis or execution fails and the console refuses the message
    of the handler, what [print] raises there leaves [answer_question]:
    the handler's [print] is under no [try]. *)
Lemma failure_crosses_when_handler_print_raises (question : string)
    (t t' : trace) (e e' : exn) :
  pipeline_fails env question t e t' ->
  (forall t0 text,
     startswith text Printing.sign_cross = false ->
     stdout t0 text = Return tt) ->
  stdout t' (Printing.sign_cross ++ " Error: " ++ exn_str e) = Raise e' ->
  Printing.answer_question env stdout question t = (Raise e', t').
Proof.
  intros Hf Hacc Hcross.
  unfold Printing.answer_question, try_except, bind, Printing.print.
  rewrite !Hacc by reflexivity.
  destruct Hf as [Hf|(sql & t1 & H1 & H2)].
  - now rewrite Hf, Hcross.
  - rewrite H1. rewrite !Hacc by reflexivity. now rewrite H2, Hcross.
Qed.

End PrintingFacts.

(** Execution fails, the handler runs, and what its [print] raises is what
    the caller gets. *)
Example broken_pipe_crosses_after_execution_fails :
  pipeline_fails Scenario.rejecting "What should we reorder?" []
    (Exception "Database error: no such table: orders_archive")
    [EvConnect; EvExecute (strip low_stock_sql)]
  /\ Printing.answer_question Scenario.rejecting Printing.broken_pipe_stdout
       "What should we reorder?" []
     = (Raise (mk_exn OtherException "[Errno 32] Broken pipe"),
        [EvConnect; EvExecute (strip low_stock_sql)]).
Proof.
  split; [|vm_compute; reflexivity].
  right. exists (strip low_stock_sql), []. split; vm_compute; reflexivity.
Qed.

(** C3.  With a console that encodes with ASCII, [answer_question] returns
    no record: the first [print] of the body raises inside the [try], the
    handler prints its own message, which starts with a sign outside
    ASCII, and the [UnicodeEncodeError] of that [print] leaves
    [answer_question], here on a question whose statement the store would
    reject.  On a console that takes every text the same request gets the
    failure record. *)
Theorem print_error_crosses_answer_question :
  Printing.answer_question Scenario.rejecting Printing.ascii_stdout
    "What should we reorder?" []
  = (Raise (mk_exn OtherException
              ("'ascii' codec can't encode character '\u274c' in position 0: "
                 ++ "ordinal not in range(128)")), [])
  /\ Printing.answer_question Scenario.rejecting Printing.utf8_stdout
       "What should we reorder?" []
     = (Return (failure_record "What should we reorder?"
                  (Exception "Database error: no such table: orders_archive")),
        [EvConnect; EvExecute (strip low_stock_sql)]).
Proof. split; vm_compute; reflexivity. Qed.
